(** * wb_monitor: sampling and aggregation of writeback statistics

    A shallow embedding of [tools/writeback/wb_monitor.py].

    The script walks the kernel's list of backing devices through drgn,
    builds one [WbStats] object per writeback queue and one [BdiStats]
    object per device, adds the former into the latter, and prints rows
    (or dictionaries) at a fixed interval until SIGINT is received.

    What the script does itself is embedded below, function by function
    and under the names of the source.  What it calls into -- the kernel
    memory read through drgn, [time.time], [time.sleep], the delivery of
    signals and the [re] module -- is the environment: a [World] record
    and a [RegexEngine] interface.  Python objects live in a heap, because
    [collectStats] updates its receiver in place. *)

From Stdlib Require Import ZArith String Ascii List Bool Lia Floats DecimalString DecimalZ.
From stdpp Require Import gmap.

Set Default Proof Using "Type".

Local Open Scope string_scope.
Local Open Scope Z_scope.

(** ** Python values the script manipulates *)

(** Exceptions the modelled code can raise.  [re_error] is [re.error];
    [Other] stands for whatever [time.sleep] may raise. *)
Inductive exn :=
  | ValueError
  | IndexError
  | AttributeError
  | re_error
  | Other.

(** How a call ends: it returns, it raises, or the bound on the number of
    loop iterations given to the model is used up. *)
Inductive outcome (A : Type) :=
  | Ret (a : A)
  | Raise (e : exn)
  | Fuel.
Arguments Ret {A} a.
Arguments Raise {A} e.
Arguments Fuel {A}.

(** [str(n)] for a Python [int]. *)
Definition str (z : Z) : string := NilZero.string_of_int (Z.to_int z).

(** A string of [n] blanks. *)
Fixpoint spaces (n : nat) : string :=
  match n with
  | O => ""
  | S n' => String " " (spaces n')
  end.

(** Format specification [w] on a [str]: left-aligned, padded to at least
    [w] characters. *)
Definition ljust (w : nat) (s : string) : string :=
  s ++ spaces (w - String.length s).

(** Format specification [w] on an [int] (given as its decimal text), and
    [>w] on a [str]: right-aligned, padded to at least [w] characters. *)
Definition rjust (w : nat) (s : string) : string :=
  spaces (w - String.length s) ++ s.

(** [s[i:]] for [0 <= i]. *)
Fixpoint string_drop (i : nat) (s : string) : string :=
  match i, s with
  | O, _ => s
  | S i', String _ s' => string_drop i' s'
  | S _, EmptyString => EmptyString
  end.

(** [s[-n:]] for [0 < n]: the last [n] characters, all of [s] when it is
    shorter. *)
Definition string_last (n : nat) (s : string) : string :=
  string_drop (String.length s - n) s.

(** ['|'.join(l)] and friends. *)
Fixpoint join (sep : string) (l : list string) : string :=
  match l with
  | [] => ""
  | [s] => s
  | s :: l' => s ++ sep ++ join sep l'
  end.

(** Values stored in the dictionary built by [Stats.dict]. *)
Inductive value :=
  | VFloat (f : float)
  | VStr (s : string)
  | VInt (z : Z).

(** ** Integers read through drgn

    The script does not compute with Python integers until it calls
    [int]: what it reads from the kernel is a drgn object, and drgn
    computes on objects as C does, in the type of the operand. *)

(** Modelled from the spec: the declarations of the fields the script
    reads are in the kernel image, not in the script.  Section 3 of the
    specification has raw counts that may be negative and a bandwidth
    that may not: they are the kernel's [s64] and [unsigned long], both
    64 bits wide. *)
Inductive ctype :=
  | s64
  | unsigned_long.

(** The value of type [t] that has the low 64 bits of [z]: two's
    complement for [s64], the residue modulo [2^64] for [unsigned long]. *)
Definition truncate (t : ctype) (z : Z) : Z :=
  match t with
  | s64 => (z + 2 ^ 63) mod 2 ^ 64 - 2 ^ 63
  | unsigned_long => z mod 2 ^ 64
  end.

(** An integer object: a type and a value of that type. *)
Record Object := {
  type_ : ctype;
  value_ : Z;
}.

(** The object of type [t] found where the 64 bits of [word] are stored. *)
Definition Object_at (t : ctype) (word : Z) : Object :=
  {| type_ := t; value_ := truncate t word |}.

(** [int(obj)], applied to the outcome of the expression that gives the
    object. *)
Definition int (r : outcome Object) : outcome Z :=
  match r with
  | Ret obj => Ret (value_ obj)
  | Raise e => Raise e
  | Fuel => Fuel
  end.

(** ** The environment *)

(** The part of a [struct bdi_writeback] the script reads, one field per
    access path.  [wb_ptr] is the pointer the list walk yields;
    [bdi_wb_address] is [wb.bdi.wb.address_of_()], the address of the
    writeback structure embedded in the device [wb.bdi] points to.
    [stat i] and [avg_write_bandwidth] are 64-bit words of kernel memory,
    each given by an integer with these low 64 bits; the script sees the
    first as an [s64] and the second as an [unsigned long]. *)
Record bdi_writeback := {
  wb_ptr : Z;
  bdi_dev_name : string;            (* wb.bdi.dev_name.string_().decode() *)
  bdi_wb_address : Z;               (* wb.bdi.wb.address_of_() *)
  memcg_css_cgroup_kn_id : Z;       (* wb.memcg_css.cgroup.kn.id.value_() *)
  stat : nat -> Z;                  (* wb.stat[i].count *)
  avg_write_bandwidth : Z;          (* wb.avg_write_bandwidth *)
}.

(** The part of a [struct backing_dev_info] the script reads: its name and
    the queues found on [bdi.wb_list], in list order. *)
Record backing_dev_info := {
  dev_name : string;                (* bdi.dev_name.string_().decode() *)
  wb_list : list bdi_writeback;
}.

(** Everything outside the script.  The kernel is live: [bdi_list n] is
    the device list as the [n]-th pass over it reads it.  [sigint_before n]
    tells whether SIGINT is delivered between the end of pass [n-1] (or the
    installation of the handler, for [n = 0]) and the [n]-th evaluation of
    the loop condition; [sigint_during n] whether it is delivered while
    pass [n] runs. *)
Record World := {
  PAGE_SHIFT : Z;
  bdi_list : nat -> list backing_dev_info;
  time_time : nat -> float;
  time_sleep : float -> option exn;   (* [None]: the call returns *)
  sigint_before : nat -> bool;
  sigint_during : nat -> bool;
}.

(** The two entry points of [re] the script uses. *)
Class RegexEngine := {
  Pattern : Type;
  re_compile : string -> option Pattern;  (* [None]: [re.error] is raised *)
  re_search : Pattern -> string -> bool;  (* is the match object not [None] *)
}.

(** Modelled from the spec: the enumeration [wb_stat_item] comes from the
    kernel image, not from the script.  Section 3 of the specification
    lists the four counters as reclaimable, writeback, dirtied, written;
    they are numbered in that order and [NR_WB_STAT_ITEMS] counts them. *)
Definition WB_RECLAIMABLE : nat := 0.
Definition WB_WRITEBACK : nat := 1.
Definition WB_DIRTIED : nat := 2.
Definition WB_WRITTEN : nat := 3.
Definition NR_WB_STAT_ITEMS : nat := 4.

(** The command line, after [argparse]. *)
Record Args := {
  bdi : list string;
  interval : float;
  json : bool;
  cgroup : bool;
}.

(** ** Program state *)

Abbreviation loc := positive.

(** Instance attributes of a [Stats] object; [stats] refers to a list. *)
Record Stats := {
  name : string;
  stats : loc;
  avg_bw : Z;
}.

Inductive cell :=
  | CStats (o : Stats)
  | CList (items : list Z).

(** What is written or requested from the outside, in order: [print] of a
    string, [print] of a dictionary, a call of [time.sleep]. *)
Inductive event :=
  | Stdout (line : string)
  | StdoutDict (d : list (string * value))
  | Sleep (secs : float).

(** Heap, trace, the class attributes [Stats.table_fmt] and [Stats.now]
    (absent until assigned) and the global [exit_req]. *)
Record state := {
  heap : gmap loc cell;
  trace : list event;
  Stats_table_fmt : option bool;
  Stats_now : option float;
  exit_req : bool;
}.

(** State of the interpreter when [main] is entered. *)
Definition initial : state :=
  {| heap := ∅; trace := []; Stats_table_fmt := None; Stats_now := None;
     exit_req := false |}.

(** State in which the loop of [main] is reached: [Stats.table_fmt] has
    been assigned from [--json]. *)
Definition entered (j : bool) : state :=
  {| heap := ∅; trace := []; Stats_table_fmt := Some (negb j); Stats_now := None;
     exit_req := false |}.

Definition M (A : Type) : Type := state -> state * outcome A.

Definition ret {A} (a : A) : M A := fun s => (s, Ret a).

Definition raise {A} (e : exn) : M A := fun s => (s, Raise e).

Definition bind {A B} (m : M A) (k : A -> M B) : M B :=
  fun s =>
    match m s with
    | (s', Ret a) => k a s'
    | (s', Raise e) => (s', Raise e)
    | (s', Fuel) => (s', Fuel)
    end.

Notation "'let*' x ':=' m 'in' k" := (bind m (fun x => k))
  (at level 10, x name, m at level 100, k at level 200).
Notation "m ';;;' k" := (bind m (fun _ => k))
  (at level 100, k at level 200, right associativity).

Definition lift {A} (r : outcome A) : M A := fun s => (s, r).

Definition with_heap (h : gmap loc cell) (s : state) : state :=
  {| heap := h; trace := trace s; Stats_table_fmt := Stats_table_fmt s;
     Stats_now := Stats_now s; exit_req := exit_req s |}.

Definition with_trace (t : list event) (s : state) : state :=
  {| heap := heap s; trace := t; Stats_table_fmt := Stats_table_fmt s;
     Stats_now := Stats_now s; exit_req := exit_req s |}.

(** A new object. *)
Definition alloc (c : cell) : M loc :=
  fun s => let l := fresh (dom (heap s)) in
           (with_heap (<[l := c]> (heap s)) s, Ret l).

(** Attribute access on a [Stats] object. *)
Definition get_stats (l : loc) : M Stats :=
  fun s => match heap s !! l with
           | Some (CStats o) => (s, Ret o)
           | _ => (s, Raise AttributeError)
           end.

(** [lst[i]] for [0 <= i]. *)
Definition get_item (l : loc) (i : nat) : M Z :=
  fun s => match heap s !! l with
           | Some (CList items) =>
               match items !! i with
               | Some z => (s, Ret z)
               | None => (s, Raise IndexError)
               end
           | _ => (s, Raise AttributeError)
           end.

(** [lst[i] = z] for [0 <= i]. *)
Definition set_item (l : loc) (i : nat) (z : Z) : M unit :=
  fun s => match heap s !! l with
           | Some (CList items) =>
               if decide (i < length items)%nat
               then (with_heap (<[l := CList (<[i := z]> items)]> (heap s)) s, Ret tt)
               else (s, Raise IndexError)
           | _ => (s, Raise AttributeError)
           end.

(** [self.avg_bw = z]. *)
Definition set_avg_bw (l : loc) (z : Z) : M unit :=
  fun s => match heap s !! l with
           | Some (CStats o) =>
               (with_heap (<[l := CStats {| name := name o; stats := stats o; avg_bw := z |}]> (heap s)) s,
                Ret tt)
           | _ => (s, Raise AttributeError)
           end.

Definition emit (e : event) : M unit :=
  fun s => (with_trace (trace s ++ [e]) s, Ret tt).

(** [for x in l: body(x)]. *)
Fixpoint for_each {A} (l : list A) (body : A -> M unit) : M unit :=
  match l with
  | [] => ret tt
  | x :: l' => body x ;;; for_each l' body
  end.

(** [[f(x) for x in l]], where [f] may raise. *)
Fixpoint comprehension {A B} (f : A -> outcome B) (l : list A) : outcome (list B) :=
  match l with
  | [] => Ret []
  | x :: l' =>
      match f x with
      | Ret b =>
          match comprehension f l' with
          | Ret bs => Ret (b :: bs)
          | Raise e => Raise e
          | Fuel => Fuel
          end
      | Raise e => Raise e
      | Fuel => Fuel
      end
  end.

(** [range(n)]. *)
Definition range (n : nat) : list nat := seq 0 n.

(** ** The script *)

Section Script.

Context {RE : RegexEngine}.
Variable W : World.

(** [K(x)]: pages to kilobytes.  The argument is a drgn object, so the
    shift is C's: the result has the type of [x] and the low 64 bits of
    the shifted value.  A negative shift count raises [ValueError]. *)
Definition K (x : Object) : outcome Object :=
  if PAGE_SHIFT W - 10 <? 0 then Raise ValueError
  else Ret {| type_ := type_ x;
              value_ := truncate (type_ x) (Z.shiftl (value_ x) (PAGE_SHIFT W - 10)) |}.

(** [Stats.table_header_str()]. *)
Definition table_header_str : string :=
  rjust 16 "" ++ " " ++ rjust 10 "writeback" ++ " " ++ rjust 12 "reclaimable" ++ " "
  ++ rjust 9 "dirtied" ++ " " ++ rjust 9 "written" ++ " " ++ rjust 9 "avg_bw".

(** [Stats.dict(self, now)]. *)
Definition dict (self : loc) (now : float) : M (list (string * value)) :=
  let* o := get_stats self in
  let* writeback := get_item (stats o) WB_WRITEBACK in
  let* reclaimable := get_item (stats o) WB_RECLAIMABLE in
  let* dirtied := get_item (stats o) WB_DIRTIED in
  let* written := get_item (stats o) WB_WRITTEN in
  ret [("timestamp", VFloat now);
       ("name", VStr (name o));
       ("writeback", VInt writeback);
       ("reclaimable", VInt reclaimable);
       ("dirtied", VInt dirtied);
       ("written", VInt written);
       ("avg_wb", VInt (avg_bw o))].

(** [Stats.table_row_str(self)]. *)
Definition table_row_str (self : loc) : M string :=
  let* o := get_stats self in
  let* writeback := get_item (stats o) WB_WRITEBACK in
  let* reclaimable := get_item (stats o) WB_RECLAIMABLE in
  let* dirtied := get_item (stats o) WB_DIRTIED in
  let* written := get_item (stats o) WB_WRITTEN in
  ret (ljust 16 (string_last 16 (name o)) ++ " "
       ++ rjust 10 (str writeback) ++ " "
       ++ rjust 12 (str reclaimable) ++ " "
       ++ rjust 9 (str dirtied) ++ " "
       ++ rjust 9 (str written) ++ " "
       ++ rjust 9 (str (avg_bw o)) ++ " ").

(** Reading the class attributes. *)
Definition get_table_fmt : M bool :=
  fun s => match Stats_table_fmt s with
           | Some b => (s, Ret b)
           | None => (s, Raise AttributeError)
           end.

Definition get_now : M float :=
  fun s => match Stats_now s with
           | Some t => (s, Ret t)
           | None => (s, Raise AttributeError)
           end.

(** [Stats.show_header()]. *)
Definition show_header : M unit :=
  let* table_fmt := get_table_fmt in
  if table_fmt then emit (Stdout "") ;;; emit (Stdout table_header_str)
  else ret tt.

(** [Stats.show_stats(self)]. *)
Definition show_stats (self : loc) : M unit :=
  let* table_fmt := get_table_fmt in
  if table_fmt then
    let* row := table_row_str self in
    emit (Stdout row)
  else
    let* now := get_now in
    let* d := dict self now in
    emit (StdoutDict d).

(** [WbStats(wb)].  The instance enters the heap once its three attributes
    are known; an instance whose initialisation raised is referred to by
    nothing. *)
Definition WbStats (wb : bdi_writeback) : M loc :=
  let bdi_name := bdi_dev_name wb in
  let ino := if wb_ptr wb =? bdi_wb_address wb then "1"
             else str (memcg_css_cgroup_kn_id wb) in
  let name := bdi_name ++ "_" ++ ino in
  let* items := lift (comprehension
                        (fun i => let count := Object_at s64 (stat wb i) in
                                  if value_ count >=? 0 then int (K count) else Ret 0)
                        (range NR_WB_STAT_ITEMS)) in
  let* stats := alloc (CList items) in
  let* avg_bw := lift (int (K (Object_at unsigned_long (avg_write_bandwidth wb)))) in
  alloc (CStats {| name := name; stats := stats; avg_bw := avg_bw |}).

(** [BdiStats(bdi)]. *)
Definition BdiStats (bdi : backing_dev_info) : M loc :=
  let* stats := alloc (CList (replicate NR_WB_STAT_ITEMS 0)) in
  alloc (CStats {| name := dev_name bdi; stats := stats; avg_bw := 0 |}).

(** [BdiStats.collectStats(self, wb_stats)]. *)
Definition collectStats (self wb_stats : loc) : M unit :=
  for_each (range NR_WB_STAT_ITEMS) (fun i =>
    let* o := get_stats self in
    let* x := get_item (stats o) i in
    let* w := get_stats wb_stats in
    let* y := get_item (stats w) i in
    set_item (stats o) i (x + y)) ;;;
  let* o := get_stats self in
  let* w := get_stats wb_stats in
  set_avg_bw self (avg_bw o + avg_bw w).

(** [sigint_handler(signr, frame)]. *)
Definition sigint_handler : M unit :=
  fun s => ({| heap := heap s; trace := trace s;
               Stats_table_fmt := Stats_table_fmt s; Stats_now := Stats_now s;
               exit_req := true |}, Ret tt).

(** Delivery of SIGINT, when the world says so. *)
Definition deliver (b : bool) : M unit :=
  if b then sigint_handler else ret tt.

Section Main.

Variable args : Args.

(** Lines 135-136 of [main]: the compiled alternation, or [None] when no
    pattern was given or the alternation is the empty string. *)
Definition compile_filter : M (option Pattern) :=
  let re_str := match bdi args with
                | [] => None
                | _ => Some (join "|" (bdi args))
                end in
  match re_str with
  | None => ret None
  | Some "" => ret None
  | Some re_str =>
      match re_compile re_str with
      | Some p => ret (Some p)
      | None => raise re_error
      end
  end.

(** The condition of line 148, negated: the device is not skipped. *)
Definition passes (filter_re : option Pattern) (name : string) : bool :=
  match filter_re with
  | None => true
  | Some p => re_search p name
  end.

(** Body of the inner [for] of [main] (lines 152-155). *)
Definition main_wb (bdi_stats : loc) (wb : bdi_writeback) : M unit :=
  let* wb_stats := WbStats wb in
  collectStats bdi_stats wb_stats ;;;
  if cgroup args then show_stats wb_stats else ret tt.

(** Body of the outer [for] of [main] (lines 147-159). *)
Definition main_bdi (filter_re : option Pattern) (bdi : backing_dev_info) : M unit :=
  let* bdi_stats := BdiStats bdi in
  let* o := get_stats bdi_stats in
  if negb (passes filter_re (name o)) then ret tt
  else
    for_each (wb_list bdi) (main_wb bdi_stats) ;;;
    show_stats bdi_stats ;;;
    if cgroup args then
      let* table_fmt := get_table_fmt in
      if table_fmt then emit (Stdout "") else ret tt
    else ret tt.

(** One pass: the body of the [while] up to the test of the interval
    (lines 143-159), as the [n]-th pass runs it. *)
Definition main_pass (filter_re : option Pattern) (n : nat) : M unit :=
  (fun s => ({| heap := heap s; trace := trace s;
                Stats_table_fmt := Stats_table_fmt s;
                Stats_now := Some (time_time W n);
                exit_req := exit_req s |}, Ret tt)) ;;;
  show_header ;;;
  for_each (bdi_list W n) (main_bdi filter_re).

(** [time.sleep(secs)]. *)
Definition sleep (secs : float) : M unit :=
  emit (Sleep secs) ;;;
  match time_sleep W secs with
  | None => ret tt
  | Some e => raise e
  end.

(** The [while] loop of [main] (lines 142-163), from its [n]-th evaluation
    of the condition on; [fuel] bounds the number of passes. *)
Fixpoint main_loop (filter_re : option Pattern) (fuel n : nat) : M unit :=
  match fuel with
  | O => lift Fuel
  | S fuel' =>
      deliver (sigint_before W n) ;;;
      fun s =>
        if exit_req s then (s, Ret tt)
        else
          (deliver (sigint_during W n) ;;;
           main_pass filter_re n ;;;
           if PrimFloat.eqb (interval args) 0%float then ret tt
           else sleep (interval args) ;;; main_loop filter_re fuel' (S n)) s
  end.

(** [main()]. *)
Definition main (fuel : nat) : M unit :=
  (fun s => ({| heap := heap s; trace := trace s;
                Stats_table_fmt := Some (negb (json args));
                Stats_now := Stats_now s;
                exit_req := exit_req s |}, Ret tt)) ;;;
  let* filter_re := compile_filter in
  main_loop filter_re fuel 0.

End Main.

End Script.

(** ** A regular-expression engine for a fragment of the syntax

    The theorems below hold for every [RegexEngine].  To run the script
    on concrete command lines an engine is needed; this one covers the
    patterns built from ordinary characters, [.], [^], [|] and groups
    [( )], with the meaning Python's [re] gives them.  A pattern that uses
    another special character (a backslash, a bracket, a brace, a
    repetition operator, [$]) lies outside the fragment and is refused
    here, whatever [re] does with it. *)

Module MiniRe.

Inductive re :=
  | Eps
  | Chr (c : ascii)
  | Any
  | Bol
  | Seq (r1 r2 : re)
  | Alt (r1 r2 : re).

(** A partly read alternation: the branches already closed by a [|] and
    the branch being read. *)
Record frame := {
  branches : option re;
  current : re;
}.

Definition close (f : frame) : re :=
  match branches f with
  | None => current f
  | Some a => Alt a (current f)
  end.

Definition push (r : re) (f : frame) : frame :=
  {| branches := branches f; current := Seq (current f) r |}.

Definition outside_fragment (c : ascii) : bool :=
  existsb (Ascii.eqb c) (list_ascii_of_string "\[]{}*+?$").

(** One left-to-right scan; [stack] holds the alternations interrupted by
    a group that is still open. *)
Fixpoint parse (s : string) (stack : list frame) (f : frame) : option re :=
  match s with
  | EmptyString =>
      match stack with
      | [] => Some (close f)
      | _ :: _ => None                               (* missing ) *)
      end
  | String c s' =>
      if Ascii.eqb c "(" then parse s' (f :: stack) {| branches := None; current := Eps |}
      else if Ascii.eqb c ")" then
        match stack with
        | [] => None                                 (* unbalanced parenthesis *)
        | g :: stack' => parse s' stack' (push (close f) g)
        end
      else if Ascii.eqb c "|" then
        parse s' stack {| branches := Some (close f); current := Eps |}
      else if Ascii.eqb c "^" then parse s' stack (push Bol f)
      else if Ascii.eqb c "." then parse s' stack (push Any f)
      else if outside_fragment c then None
      else parse s' stack (push (Chr c) f)
  end.

Definition compile (s : string) : option re :=
  parse s [] {| branches := None; current := Eps |}.

(** Does [r] match a prefix of [s] after which [k] accepts?  [bol] tells
    whether [s] starts at the beginning of the searched string. *)
Fixpoint matches (r : re) (bol : bool) (s : string) (k : bool -> string -> bool) : bool :=
  match r with
  | Eps => k bol s
  | Chr c =>
      match s with
      | String c' s' => if Ascii.eqb c c' then k false s' else false
      | EmptyString => false
      end
  | Any =>
      match s with
      | String c' s' => if Ascii.eqb c' "010" then false else k false s'
      | EmptyString => false
      end
  | Bol => if bol then k bol s else false
  | Seq r1 r2 => matches r1 bol s (fun b s' => matches r2 b s' k)
  | Alt r1 r2 => matches r1 bol s k || matches r2 bol s k
  end.

Fixpoint search_from (r : re) (bol : bool) (s : string) : bool :=
  matches r bol s (fun _ _ => true)
  || match s with
     | String _ s' => search_from r false s'
     | EmptyString => false
     end.

Definition search (r : re) (s : string) : bool := search_from r true s.

#[export] Instance engine : RegexEngine :=
  {| Pattern := re; re_compile := compile; re_search := search |}.

End MiniRe.

(** ** Concrete worlds and command lines *)

Module Demo.

(** The default queue of [bdi0]: the structure embedded in the device. *)
Definition wb_default : bdi_writeback :=
  {| wb_ptr := 4096; bdi_dev_name := "bdi0"; bdi_wb_address := 4096;
     memcg_css_cgroup_kn_id := 1;
     stat := fun i => nth i [10; 5; 20; 15] 0;
     avg_write_bandwidth := 0 |}.

(** The queue of cgroup 42 on [bdi0]. *)
Definition wb_cg42 : bdi_writeback :=
  {| wb_ptr := 8192; bdi_dev_name := "bdi0"; bdi_wb_address := 4096;
     memcg_css_cgroup_kn_id := 42;
     stat := fun i => nth i [2; 1; 4; 3] 0;
     avg_write_bandwidth := 0 |}.

Definition bdi0 : backing_dev_info :=
  {| dev_name := "bdi0"; wb_list := [wb_default; wb_cg42] |}.

(** A queue two of whose counters are negative. *)
Definition wb_negative : bdi_writeback :=
  {| wb_ptr := 12288; bdi_dev_name := "sda"; bdi_wb_address := 12288;
     memcg_css_cgroup_kn_id := 1;
     stat := fun i => nth i [-7; 3; -1; 1234567890] 0;
     avg_write_bandwidth := 25 |}.

Definition sda : backing_dev_info :=
  {| dev_name := "sda"; wb_list := [wb_negative] |}.

(** 4 KiB pages, two devices, [time.sleep] refuses negative numbers and
    NaN; [before] and [during] say when SIGINT arrives. *)
Definition world (before during : nat -> bool) : World :=
  {| PAGE_SHIFT := 12;
     bdi_list := fun _ => [bdi0; sda];
     time_time := fun n => (1700000000 + PrimFloat.of_uint63 (Uint63.of_nat n))%float;
     time_sleep := fun secs => if PrimFloat.leb 0 secs then None else Some ValueError;
     sigint_before := before;
     sigint_during := during |}.

Definition never : nat -> bool := fun _ => false.
Definition in_pass (k : nat) : nat -> bool := fun n => Nat.eqb n k.

Definition args (patterns : list string) (secs : float) (j c : bool) : Args :=
  {| bdi := patterns; interval := secs; json := j; cgroup := c |}.

End Demo.

(** ** The quantities the specification speaks about

    Pure descriptions of what a pass is expected to compute and print,
    written from the wording of the specification; the theorems compare
    them with what the script does. *)

Section Quantities.

Variable W : World.

(** Pages to kilobytes, in the C type [t]. *)
Definition kilobytes (t : ctype) (pages : Z) : Z :=
  truncate t (Z.shiftl pages (PAGE_SHIFT W - 10)).

(** The raw values as the script reads them. *)
Definition raw_count (wb : bdi_writeback) (i : nat) : Z :=
  truncate s64 (stat wb i).

Definition raw_bandwidth (wb : bdi_writeback) : Z :=
  truncate unsigned_long (avg_write_bandwidth wb).

(** Counter [i] of a queue, in kilobytes, a negative raw count being
    taken as zero. *)
Definition queue_counter (wb : bdi_writeback) (i : nat) : Z :=
  if raw_count wb i <? 0 then 0 else kilobytes s64 (raw_count wb i).

Definition queue_counters (wb : bdi_writeback) : list Z :=
  map (queue_counter wb) (range NR_WB_STAT_ITEMS).

Definition queue_bandwidth (wb : bdi_writeback) : Z :=
  kilobytes unsigned_long (raw_bandwidth wb).

Definition queue_name (wb : bdi_writeback) : string :=
  bdi_dev_name wb ++ "_"
  ++ (if decide (wb_ptr wb = bdi_wb_address wb) then "1"
      else str (memcg_css_cgroup_kn_id wb)).

Definition total (l : list Z) : Z := fold_right Z.add 0 l.

(** Counter [i] of a device: the sum over its queues. *)
Definition device_counter (bdi : backing_dev_info) (i : nat) : Z :=
  total (map (fun wb => queue_counter wb i) (wb_list bdi)).

Definition device_counters (bdi : backing_dev_info) : list Z :=
  map (device_counter bdi) (range NR_WB_STAT_ITEMS).

Definition device_bandwidth (bdi : backing_dev_info) : Z :=
  total (map queue_bandwidth (wb_list bdi)).

(** The record printed for a sample with the given name, counters and
    bandwidth: a table row, or a dictionary carrying the time stamp. *)
Definition shown (table_fmt : bool) (now : float)
    (name : string) (counters : list Z) (bw : Z) : event :=
  let c := fun i => nth i counters 0 in
  if table_fmt then
    Stdout (ljust 16 (string_last 16 name) ++ " "
           ++ rjust 10 (str (c WB_WRITEBACK)) ++ " "
           ++ rjust 12 (str (c WB_RECLAIMABLE)) ++ " "
           ++ rjust 9 (str (c WB_DIRTIED)) ++ " "
           ++ rjust 9 (str (c WB_WRITTEN)) ++ " "
           ++ rjust 9 (str bw) ++ " ")
  else
    StdoutDict [("timestamp", VFloat now); ("name", VStr name);
               ("writeback", VInt (c WB_WRITEBACK));
               ("reclaimable", VInt (c WB_RECLAIMABLE));
               ("dirtied", VInt (c WB_DIRTIED));
               ("written", VInt (c WB_WRITTEN));
               ("avg_wb", VInt bw)].

Definition shown_queue (table_fmt : bool) (now : float) (wb : bdi_writeback) : event :=
  shown table_fmt now (queue_name wb) (queue_counters wb) (queue_bandwidth wb).

Definition shown_device (table_fmt : bool) (now : float) (bdi : backing_dev_info) : event :=
  shown table_fmt now (dev_name bdi) (device_counters bdi) (device_bandwidth bdi).

(** Output of the pass over one device that is not skipped: with
    [--cgroup] one record per queue, then the device total, then a blank
    line when both [--cgroup] and the table format are in force. *)
Definition device_events (cg table_fmt : bool) (now : float)
    (bdi : backing_dev_info) : list event :=
  (if cg then map (shown_queue table_fmt now) (wb_list bdi) else [])
  ++ [shown_device table_fmt now bdi]
  ++ (if cg && table_fmt then [Stdout ""] else []).

(** Has a stop been requested by the time the loop condition is evaluated
    for the [n]-th time? *)
Fixpoint stop_by (n : nat) : bool :=
  match n with
  | O => sigint_before W 0
  | S n' => stop_by n' || sigint_during W n' || sigint_before W n
  end.

End Quantities.

(** Output of the [n]-th pass. *)
Definition pass_events {RE : RegexEngine} (W : World) (args : Args)
    (filter_re : option Pattern) (n : nat) : list event :=
  (if json args then [] else [Stdout ""; Stdout table_header_str])
  ++ flat_map (fun bdi => if passes filter_re (dev_name bdi)
                          then device_events W (cgroup args) (negb (json args))
                                 (time_time W n) bdi
                          else [])
       (bdi_list W n).

(** A field holding [text] flush right, respectively flush left, in a
    column of exactly [w] characters. *)
Definition right_aligned (w : nat) (text field : string) : Prop :=
  String.length field = w /\ exists n, field = spaces n ++ text.

Definition left_aligned (w : nat) (text field : string) : Prop :=
  String.length field = w /\ exists n, field = text ++ spaces n.

(** The same in a column of at least [w] characters, which widens for a
    longer text. *)
Definition right_aligned_min (w : nat) (text field : string) : Prop :=
  String.length field = Nat.max w (String.length text)
  /\ exists n, field = spaces n ++ text.

(** The engine compiles the empty pattern, and the empty pattern is found
    in every string. *)
Definition empty_pattern_matches {RE : RegexEngine} : Prop :=
  exists p, re_compile "" = Some p /\ forall s, re_search p s = true.

(** A table row as six columns of fixed width, every one flush right,
    each followed by one blank. *)
Definition six_right_aligned_columns (name : string)
    (writeback reclaimable dirtied written bw : Z) (row : string) : Prop :=
  exists f1 f2 f3 f4 f5 f6,
    row = f1 ++ " " ++ f2 ++ " " ++ f3 ++ " " ++ f4 ++ " " ++ f5 ++ " " ++ f6 ++ " "
    /\ right_aligned 16 (string_last 16 name) f1
    /\ right_aligned 10 (str writeback) f2
    /\ right_aligned 12 (str reclaimable) f3
    /\ right_aligned 9 (str dirtied) f4
    /\ right_aligned 9 (str written) f5
    /\ right_aligned 9 (str bw) f6.

(** A heap holding one sample: object [1] with counters in list [2]. *)
Definition one_sample (name : string) (counters : list Z) (bw : Z) : state :=
  {| heap := <[1%positive := CStats {| name := name; stats := 2%positive; avg_bw := bw |}]>
               (<[2%positive := CList counters]> ∅);
     trace := []; Stats_table_fmt := Some true; Stats_now := None;
     exit_req := false |}.

(** A heap holding a device sample (object [1], counters in list [2]) and
    a queue sample (object [3], counters in list [4]). *)
Definition two_samples : state :=
  {| heap := <[1%positive := CStats {| name := "bdi0"; stats := 2%positive; avg_bw := 3 |}]>
               (<[2%positive := CList [1; 2; 3; 4]]>
                  (<[3%positive := CStats {| name := "bdi0_1"; stats := 4%positive;
                                             avg_bw := 5 |}]>
                     (<[4%positive := CList [10; 20; 30; 40]]> ∅)));
     trace := []; Stats_table_fmt := Some true; Stats_now := None;
     exit_req := false |}.

(** ** Further worlds and states, for the properties beyond the claims *)

Module Cases.

(** A device without any queue. *)
Definition idle : backing_dev_info := {| dev_name := "loop0"; wb_list := [] |}.

(** The queues of [Demo.bdi0] in the other order. *)
Definition bdi0_reversed : backing_dev_info :=
  {| dev_name := "bdi0"; wb_list := [Demo.wb_cg42; Demo.wb_default] |}.

(** A queue with a count of [2^62] pages, and a bandwidth word whose top
    bit is set: [2^64 - 25], which read as a signed number is [-25]. *)
Definition wb_huge : bdi_writeback :=
  {| wb_ptr := 16384; bdi_dev_name := "sdb"; bdi_wb_address := 16384;
     memcg_css_cgroup_kn_id := 1;
     stat := fun i => nth i [2 ^ 62; 0; 0; 0] 0;
     avg_write_bandwidth := 2 ^ 64 - 25 |}.

(** A world whose page shift is below 10. *)
Definition small_pages : World :=
  {| PAGE_SHIFT := 9;
     bdi_list := fun _ => [idle; Demo.bdi0];
     time_time := fun _ => 0%float;
     time_sleep := fun _ => None;
     sigint_before := fun _ => false;
     sigint_during := fun _ => false |}.

(** A state inside a pass: both class attributes are assigned. *)
Definition in_pass (j : bool) : state :=
  {| heap := ∅; trace := []; Stats_table_fmt := Some (negb j); Stats_now := Some 0%float;
     exit_req := false |}.

End Cases.

(** A heap holding a device sample (object [1], list [2]) and two queue
    samples (objects [3] and [5], lists [4] and [6]). *)
Definition three_samples : state :=
  {| heap := <[1%positive := CStats {| name := "bdi0"; stats := 2%positive; avg_bw := 3 |}]>
               (<[2%positive := CList [1; 2; 3; 4]]>
                  (<[3%positive := CStats {| name := "bdi0_1"; stats := 4%positive;
                                             avg_bw := 5 |}]>
                     (<[4%positive := CList [10; 20; 30; 40]]>
                        (<[5%positive := CStats {| name := "bdi0_42"; stats := 6%positive;
                                                   avg_bw := 7 |}]>
                           (<[6%positive := CList [100; 200; 300; 400]]> ∅)))));
     trace := []; Stats_table_fmt := Some true; Stats_now := None;
     exit_req := false |}.

(** Every object of [s] is found unchanged in [s']. *)
Definition keeps_objects (s s' : state) : Prop :=
  forall l c, heap s !! l = Some c -> heap s' !! l = Some c.

(** The keys of the dictionary of the structured output, in order. *)
Definition dict_keys : list string :=
  ["timestamp"; "name"; "writeback"; "reclaimable"; "dirtied"; "written"; "avg_wb"].

(** Number of records a pass prints for the devices it accepts: one per
    device, and one more per queue under [--cgroup]. *)
Definition record_count {RE : RegexEngine} (cg : bool) (filter_re : option Pattern)
    (bdis : list backing_dev_info) : nat :=
  list_sum (map (fun bdi => if passes filter_re (dev_name bdi)
                            then S (if cg then length (wb_list bdi) else 0)
                            else 0%nat) bdis).

(** ** The monad *)

Lemma bind_Ret {A B} (m : M A) (k : A -> M B) s s1 a :
  m s = (s1, Ret a) -> bind m k s = k a s1.
Proof. unfold bind. intros ->. reflexivity. Qed.

Lemma bind_Raise {A B} (m : M A) (k : A -> M B) s s1 e :
  m s = (s1, Raise e) -> bind m k s = (s1, Raise e).
Proof. unfold bind. intros ->. reflexivity. Qed.

Lemma comprehension_Ret {A B} (f : A -> outcome B) (g : A -> B) l :
  (forall x, f x = Ret (g x)) -> comprehension f l = Ret (map g l).
Proof.
  intros Hf. induction l as [|x l IH]; simpl.
  - reflexivity.
  - rewrite Hf, IH. reflexivity.
Qed.

(** ** Strings *)

Lemma length_append (a b : string) :
  String.length (a ++ b) = (String.length a + String.length b)%nat.
Proof. induction a as [|c a IH]; simpl; [reflexivity | rewrite IH; reflexivity]. Qed.

Lemma length_spaces n : String.length (spaces n) = n.
Proof. induction n as [|n IH]; simpl; [reflexivity | rewrite IH; reflexivity]. Qed.

Lemma append_inv_head (a b c : string) : a ++ b = a ++ c -> b = c.
Proof. induction a as [|x a IH]; simpl; intros Heq; [exact Heq | injection Heq; auto]. Qed.

Lemma length_string_drop i s :
  String.length (string_drop i s) = (String.length s - i)%nat.
Proof.
  revert s. induction i as [|i IH]; intros s.
  - simpl. lia.
  - destruct s as [|c s]; simpl; [reflexivity | apply IH].
Qed.

Lemma string_drop_suffix i s : exists pre, s = pre ++ string_drop i s.
Proof.
  revert s. induction i as [|i IH]; intros s.
  - exists "". reflexivity.
  - destruct s as [|c s]; simpl.
    + exists "". reflexivity.
    + destruct (IH s) as [pre Hpre]. exists (String c pre).
      change (String c s = String c (pre ++ string_drop i s)). f_equal. exact Hpre.
Qed.

(** [s[-n:]] is the end of [s], [n] characters long unless [s] is shorter. *)
Lemma string_last_suffix n s :
  String.length (string_last n s) = Nat.min n (String.length s)
  /\ exists pre, s = pre ++ string_last n s.
Proof.
  unfold string_last. split; [rewrite length_string_drop; lia | apply string_drop_suffix].
Qed.

Lemma ljust_left_aligned w text :
  (String.length text <= w)%nat -> left_aligned w text (ljust w text).
Proof.
  intros Hle. unfold left_aligned, ljust. split.
  - rewrite length_append, length_spaces. lia.
  - eexists. reflexivity.
Qed.

Lemma rjust_right_aligned_min w text : right_aligned_min w text (rjust w text).
Proof.
  unfold right_aligned_min, rjust. split.
  - rewrite length_append, length_spaces. lia.
  - eexists. reflexivity.
Qed.

(** [str] tells integers apart from 1. *)
Lemma str_1 z : str z = "1" -> z = 1.
Proof.
  unfold str. intros Hs. rewrite <- (DecimalZ.of_to z).
  destruct (Z.to_int z) as [u|u] eqn:Hu; simpl in Hs.
  - assert (NilZero.int_of_string (NilZero.string_of_int (Decimal.Pos u))
            = Some (Decimal.Pos (Decimal.D1 Decimal.Nil))) as Hi
      by (simpl NilZero.string_of_int; rewrite Hs; reflexivity).
    destruct u; try (rewrite NilZero.isi in Hi by discriminate;
                     injection Hi as Hi; rewrite Hi; reflexivity).
  - discriminate Hs.
Qed.

(** ** Sampling one queue *)

Lemma K_kilobytes W t z :
  10 <= PAGE_SHIFT W ->
  int (K W (Object_at t z)) = Ret (kilobytes W t (truncate t z)).
Proof.
  intros Hs. unfold K, kilobytes.
  destruct (Z.ltb_spec (PAGE_SHIFT W - 10) 0); [lia | reflexivity].
Qed.

Lemma clamp_queue_counter W wb i :
  10 <= PAGE_SHIFT W ->
  (let count := Object_at s64 (stat wb i) in
   if value_ count >=? 0 then int (K W count) else Ret 0) = Ret (queue_counter W wb i).
Proof.
  intros Hs. unfold queue_counter, raw_count. cbn zeta. cbn [Object_at value_].
  rewrite Z.geb_leb.
  destruct (Z.leb_spec 0 (truncate s64 (stat wb i))), (Z.ltb_spec (truncate s64 (stat wb i)) 0);
    try lia.
  - apply K_kilobytes, Hs.
  - reflexivity.
Qed.

Lemma ino_queue_name wb :
  bdi_dev_name wb ++ "_"
  ++ (if wb_ptr wb =? bdi_wb_address wb then "1" else str (memcg_css_cgroup_kn_id wb))
  = queue_name wb.
Proof.
  unfold queue_name.
  destruct (Z.eqb_spec (wb_ptr wb) (bdi_wb_address wb)), (decide (wb_ptr wb = bdi_wb_address wb));
    congruence.
Qed.

(** What [WbStats(wb)] leaves in the heap: a new list and a new object. *)
Lemma WbStats_run W wb s :
  10 <= PAGE_SHIFT W ->
  let l := fresh (dom (heap s)) in
  let h1 := <[l := CList (queue_counters W wb)]> (heap s) in
  let self := fresh (dom h1) in
  WbStats W wb s =
    (with_heap (<[self := CStats {| name := queue_name wb; stats := l;
                                     avg_bw := queue_bandwidth W wb |}]> h1) s,
     Ret self).
Proof.
  intros Hs. unfold WbStats.
  rewrite (comprehension_Ret _ (queue_counter W wb)) by (intros; apply clamp_queue_counter, Hs).
  rewrite K_kilobytes by exact Hs. rewrite ino_queue_name.
  fold (raw_bandwidth wb). fold (queue_bandwidth W wb).
  reflexivity.
Qed.

Lemma fresh_heap (h : gmap loc cell) : h !! fresh (dom h) = None.
Proof. apply not_elem_of_dom, is_fresh. Qed.

(** The same, told by what can be looked up afterwards. *)
Lemma WbStats_sample W wb s :
  10 <= PAGE_SHIFT W ->
  exists self l,
    WbStats W wb s =
      (with_heap (<[self := CStats {| name := queue_name wb; stats := l;
                                       avg_bw := queue_bandwidth W wb |}]>
                    (<[l := CList (queue_counters W wb)]> (heap s))) s,
       Ret self)
    /\ heap s !! l = None /\ heap s !! self = None /\ self <> l.
Proof.
  intros Hs. eexists _, _. split; [apply WbStats_run, Hs|].
  split; [apply fresh_heap|].
  pose proof (fresh_heap (<[fresh (dom (heap s)) := CList (queue_counters W wb)]> (heap s))) as Hf.
  apply lookup_insert_None in Hf as [Hf Hne]. split; [exact Hf | congruence].
Qed.

Lemma queue_counters_lookup W wb i :
  (i < NR_WB_STAT_ITEMS)%nat -> queue_counters W wb !! i = Some (queue_counter W wb i).
Proof.
  intros Hi. unfold queue_counters, range.
  rewrite list_lookup_fmap, lookup_seq_lt by exact Hi. reflexivity.
Qed.

Lemma truncate_s64_range z : - 2 ^ 63 <= truncate s64 z < 2 ^ 63.
Proof.
  unfold truncate. pose proof (Z.mod_pos_bound (z + 2 ^ 63) (2 ^ 64) eq_refl). lia.
Qed.

Lemma truncate_unsigned_range z : 0 <= truncate unsigned_long z < 2 ^ 64.
Proof. unfold truncate. apply Z.mod_pos_bound. reflexivity. Qed.

Lemma truncate_s64_fits z : - 2 ^ 63 <= z < 2 ^ 63 -> truncate s64 z = z.
Proof. intros Hz. unfold truncate. rewrite Z.mod_small by lia. lia. Qed.

Lemma truncate_unsigned_fits z : 0 <= z < 2 ^ 64 -> truncate unsigned_long z = z.
Proof. intros Hz. unfold truncate. apply Z.mod_small. exact Hz. Qed.

(** Shifting left by [n] bits a number below [2^(b-n)] gives one below
    [2^b]. *)
Lemma shiftl_below b n z :
  0 <= n -> 0 <= z < 2 ^ (b - n) -> 0 <= Z.shiftl z n < 2 ^ b.
Proof.
  intros Hn Hz. rewrite Z.shiftl_mul_pow2 by exact Hn.
  destruct (Z.lt_ge_cases (b - n) 0) as [Hneg|Hpos].
  - rewrite Z.pow_neg_r in Hz by exact Hneg. lia.
  - assert (2 ^ b = 2 ^ (b - n) * 2 ^ n) as ->
      by (rewrite <- Z.pow_add_r by lia; f_equal; lia).
    pose proof (Z.pow_pos_nonneg 2 n eq_refl Hn). nia.
Qed.

(** C2, as the code has it.  The count the sampler reads is an [s64].
    When it is negative the sampler stores [0]; otherwise it stores the
    count shifted left by [PAGE_SHIFT - 10] in 64-bit two's complement,
    which is the shifted count itself as long as the count is below
    [2 ^ (73 - PAGE_SHIFT)]. *)
Theorem C2_counter_clamped_then_converted W wb s i :
  10 <= PAGE_SHIFT W ->
  (i < NR_WB_STAT_ITEMS)%nat ->
  exists s' self o items z,
    WbStats W wb s = (s', Ret self)
    /\ heap s' !! self = Some (CStats o)
    /\ heap s' !! stats o = Some (CList items)
    /\ items !! i = Some z
    /\ (- 2 ^ 63 <= stat wb i < 2 ^ 63 -> raw_count wb i = stat wb i)
    /\ (0 <= raw_count wb i ->
        z = truncate s64 (Z.shiftl (raw_count wb i) (PAGE_SHIFT W - 10)))
    /\ (0 <= raw_count wb i < 2 ^ (73 - PAGE_SHIFT W) ->
        z = Z.shiftl (raw_count wb i) (PAGE_SHIFT W - 10))
    /\ (raw_count wb i < 0 -> z = 0).
Proof.
  intros Hs Hi.
  destruct (WbStats_sample W wb s Hs) as (self & l & Hrun & _ & _ & Hne).
  eexists _, self, _, _, (queue_counter W wb i). split; [exact Hrun|]. simpl.
  split; [apply lookup_insert_eq|].
  split; [rewrite lookup_insert_ne by exact Hne; apply lookup_insert_eq|].
  split; [apply queue_counters_lookup, Hi|].
  split; [apply truncate_s64_fits|].
  unfold queue_counter, kilobytes.
  destruct (Z.ltb_spec (raw_count wb i) 0); (split; [|split]); intros; try lia; try reflexivity.
  apply truncate_s64_fits.
  pose proof (shiftl_below 63 (PAGE_SHIFT W - 10) (raw_count wb i)) as Hb.
  replace (63 - (PAGE_SHIFT W - 10)) with (73 - PAGE_SHIFT W) in Hb by lia.
  specialize (Hb ltac:(lia) ltac:(lia)). lia.
Qed.

Lemma C2_witness :
  exists s' self o items z,
    WbStats (Demo.world Demo.never Demo.never) Demo.wb_negative initial = (s', Ret self)
    /\ heap s' !! self = Some (CStats o)
    /\ heap s' !! stats o = Some (CList items)
    /\ items !! 3%nat = Some z
    /\ (- 2 ^ 63 <= stat Demo.wb_negative 3 < 2 ^ 63 ->
        raw_count Demo.wb_negative 3 = stat Demo.wb_negative 3)
    /\ (0 <= raw_count Demo.wb_negative 3 ->
        z = truncate s64 (Z.shiftl (raw_count Demo.wb_negative 3)
                            (PAGE_SHIFT (Demo.world Demo.never Demo.never) - 10)))
    /\ (0 <= raw_count Demo.wb_negative 3
              < 2 ^ (73 - PAGE_SHIFT (Demo.world Demo.never Demo.never)) ->
        z = Z.shiftl (raw_count Demo.wb_negative 3)
              (PAGE_SHIFT (Demo.world Demo.never Demo.never) - 10))
    /\ (raw_count Demo.wb_negative 3 < 0 -> z = 0).
Proof.
  apply (C2_counter_clamped_then_converted
           (Demo.world Demo.never Demo.never) Demo.wb_negative initial 3).
  - simpl. lia.
  - unfold NR_WB_STAT_ITEMS. lia.
Defined.

(** C2 fails as stated.  With 4 KiB pages a count of [2^62] pages is not
    negative, and shifted left by two bits it is [2^64]; the sampler
    stores [0], the low 64 bits of that. *)
Lemma C2_counterexample :
  exists s' self o items,
    WbStats (Demo.world Demo.never Demo.never) Cases.wb_huge initial = (s', Ret self)
    /\ heap s' !! self = Some (CStats o)
    /\ heap s' !! stats o = Some (CList items)
    /\ items !! 0%nat = Some 0
    /\ stat Cases.wb_huge 0 = 2 ^ 62
    /\ Z.shiftl (stat Cases.wb_huge 0) (PAGE_SHIFT (Demo.world Demo.never Demo.never) - 10)
       = 2 ^ 64.
Proof.
  eexists _, _, _, _. split; [vm_compute; reflexivity|].
  split; [vm_compute; reflexivity|]. split; [vm_compute; reflexivity|].
  split; [reflexivity|]. split; reflexivity.
Qed.

(** C5.  The name of a queue sample is the name of the device the queue
    points to, an underscore, and an owner id: ["1"] when the queue pointer
    equals the address of the writeback structure embedded in that device,
    the decimal text of the cgroup identifier otherwise; the latter is not
    ["1"] unless the identifier is 1. *)
Theorem C5_queue_sample_name W wb s :
  10 <= PAGE_SHIFT W ->
  exists s' self o,
    WbStats W wb s = (s', Ret self)
    /\ heap s' !! self = Some (CStats o)
    /\ (wb_ptr wb = bdi_wb_address wb -> name o = bdi_dev_name wb ++ "_" ++ "1")
    /\ (wb_ptr wb <> bdi_wb_address wb ->
        name o = bdi_dev_name wb ++ "_" ++ str (memcg_css_cgroup_kn_id wb))
    /\ (wb_ptr wb <> bdi_wb_address wb -> memcg_css_cgroup_kn_id wb <> 1 ->
        name o <> bdi_dev_name wb ++ "_" ++ "1").
Proof.
  intros Hs.
  destruct (WbStats_sample W wb s Hs) as (self & l & Hrun & _ & _ & Hne).
  eexists _, self, _. split; [exact Hrun|]. simpl.
  split; [apply lookup_insert_eq|]. simpl. unfold queue_name.
  destruct (decide (wb_ptr wb = bdi_wb_address wb)); repeat split; intros; try congruence.
  intros Heq. do 2 apply append_inv_head in Heq. apply str_1 in Heq. congruence.
Qed.

Lemma C5_witness :
  exists s' self o,
    WbStats (Demo.world Demo.never Demo.never) Demo.wb_cg42 initial = (s', Ret self)
    /\ heap s' !! self = Some (CStats o)
    /\ (wb_ptr Demo.wb_cg42 = bdi_wb_address Demo.wb_cg42 ->
        name o = bdi_dev_name Demo.wb_cg42 ++ "_" ++ "1")
    /\ (wb_ptr Demo.wb_cg42 <> bdi_wb_address Demo.wb_cg42 ->
        name o = bdi_dev_name Demo.wb_cg42 ++ "_" ++ str (memcg_css_cgroup_kn_id Demo.wb_cg42))
    /\ (wb_ptr Demo.wb_cg42 <> bdi_wb_address Demo.wb_cg42 ->
        memcg_css_cgroup_kn_id Demo.wb_cg42 <> 1 ->
        name o <> bdi_dev_name Demo.wb_cg42 ++ "_" ++ "1").
Proof.
  apply (C5_queue_sample_name (Demo.world Demo.never Demo.never) Demo.wb_cg42 initial).
  simpl. lia.
Defined.

(** ** Heap accesses *)

Lemma get_stats_run s l o :
  heap s !! l = Some (CStats o) -> get_stats l s = (s, Ret o).
Proof. unfold get_stats. intros ->. reflexivity. Qed.

Lemma get_item_run s l items i z :
  heap s !! l = Some (CList items) -> items !! i = Some z ->
  get_item l i s = (s, Ret z).
Proof. unfold get_item. intros -> ->. reflexivity. Qed.

Lemma set_item_run s l items i z :
  heap s !! l = Some (CList items) -> (i < length items)%nat ->
  set_item l i z s = (with_heap (<[l := CList (<[i := z]> items)]> (heap s)) s, Ret tt).
Proof.
  unfold set_item. intros -> Hi. destruct (decide (i < length items)%nat); [reflexivity | lia].
Qed.

Lemma set_avg_bw_run s l o z :
  heap s !! l = Some (CStats o) ->
  set_avg_bw l z s =
    (with_heap (<[l := CStats {| name := name o; stats := stats o; avg_bw := z |}]> (heap s)) s,
     Ret tt).
Proof. unfold set_avg_bw. intros ->. reflexivity. Qed.

Lemma with_heap_with_heap h h' s : with_heap h (with_heap h' s) = with_heap h s.
Proof. reflexivity. Qed.

(** Looks a location up in a heap built by insertions. *)
Ltac heap_lookup :=
  simpl;
  repeat first [ rewrite lookup_insert_eq
               | rewrite lookup_insert_ne by congruence ];
  first [ eassumption | reflexivity ].

(** Runs the heap access at the head of a sequence. *)
Ltac run_access :=
  first
    [ erewrite (bind_Ret (get_stats _)) by (apply get_stats_run; heap_lookup)
    | erewrite (bind_Ret (get_item _ _)) by (eapply get_item_run; [heap_lookup | reflexivity])
    | erewrite set_avg_bw_run by heap_lookup ].

(** ** Accumulating a queue sample into a device total *)

(** One turn of the loop of [collectStats]. *)
Lemma collectStats_item s self wb_stats o w acc items i x y :
  heap s !! self = Some (CStats o) ->
  heap s !! stats o = Some (CList acc) ->
  heap s !! wb_stats = Some (CStats w) ->
  heap s !! stats w = Some (CList items) ->
  acc !! i = Some x ->
  items !! i = Some y ->
  (let* o := get_stats self in
   let* x := get_item (stats o) i in
   let* w := get_stats wb_stats in
   let* y := get_item (stats w) i in
   set_item (stats o) i (x + y)) s
  = (with_heap (<[stats o := CList (<[i := x + y]> acc)]> (heap s)) s, Ret tt).
Proof.
  intros Hself Hacc Hwb Hitems Hx Hy.
  erewrite (bind_Ret (get_stats _)) by (apply get_stats_run; eassumption).
  erewrite (bind_Ret (get_item _ _)) by (eapply get_item_run; eassumption).
  erewrite (bind_Ret (get_stats _)) by (apply get_stats_run; eassumption).
  erewrite (bind_Ret (get_item _ _)) by (eapply get_item_run; eassumption).
  eapply set_item_run; [eassumption|]. eapply lookup_lt_Some, Hx.
Qed.

(** The heap after [self.collectStats(wb_stats)], for two samples with
    four counters each that do not share their counter list. *)
Lemma collectStats_run s self wb_stats o w a0 a1 a2 a3 b0 b1 b2 b3 :
  heap s !! self = Some (CStats o) ->
  heap s !! stats o = Some (CList [a0; a1; a2; a3]) ->
  heap s !! wb_stats = Some (CStats w) ->
  heap s !! stats w = Some (CList [b0; b1; b2; b3]) ->
  stats o <> stats w ->
  collectStats self wb_stats s =
    (with_heap
       (<[self := CStats {| name := name o; stats := stats o;
                            avg_bw := avg_bw o + avg_bw w |}]>
          (<[stats o := CList [a0 + b0; a1 + b1; a2 + b2; a3 + b3]]> (heap s))) s,
     Ret tt).
Proof.
  intros Hself Hacc Hwb Hitems Hlists.
  assert (self <> stats o) by congruence.
  assert (wb_stats <> stats o) by congruence.
  unfold collectStats, range, NR_WB_STAT_ITEMS. simpl seq. unfold for_each.
  erewrite bind_Ret; cycle 1.
  { erewrite bind_Ret
      by (eapply collectStats_item; [heap_lookup | heap_lookup | heap_lookup | heap_lookup
                                    | reflexivity | reflexivity]).
    erewrite bind_Ret
      by (eapply collectStats_item; [heap_lookup | heap_lookup | heap_lookup | heap_lookup
                                    | reflexivity | reflexivity]).
    erewrite bind_Ret
      by (eapply collectStats_item; [heap_lookup | heap_lookup | heap_lookup | heap_lookup
                                    | reflexivity | reflexivity]).
    erewrite bind_Ret
      by (eapply collectStats_item; [heap_lookup | heap_lookup | heap_lookup | heap_lookup
                                    | reflexivity | reflexivity]).
    reflexivity. }
  simpl. rewrite !insert_insert_eq.
  do 3 run_access.
  reflexivity.
Qed.

(** C10.  Adding a queue sample into a device sample changes the counter
    list and the bandwidth of the device sample and nothing else: the
    queue sample and its counter list are as before, the device sample
    keeps its name and its list, every other object is untouched, nothing
    is printed and no global changes. *)
Theorem C10_collectStats_frame s self wb_stats o w acc items :
  heap s !! self = Some (CStats o) ->
  heap s !! stats o = Some (CList acc) ->
  length acc = NR_WB_STAT_ITEMS ->
  heap s !! wb_stats = Some (CStats w) ->
  heap s !! stats w = Some (CList items) ->
  length items = NR_WB_STAT_ITEMS ->
  stats o <> stats w ->
  exists s',
    collectStats self wb_stats s = (s', Ret tt)
    /\ heap s' !! wb_stats = Some (CStats w)
    /\ heap s' !! stats w = Some (CList items)
    /\ (exists o', heap s' !! self = Some (CStats o')
                   /\ name o' = name o /\ stats o' = stats o)
    /\ (forall l, l <> self -> l <> stats o -> heap s' !! l = heap s !! l)
    /\ trace s' = trace s
    /\ Stats_table_fmt s' = Stats_table_fmt s
    /\ Stats_now s' = Stats_now s
    /\ exit_req s' = exit_req s.
Proof.
  intros Hself Hacc Hla Hwb Hitems Hli Hlists.
  destruct acc as [|a0 [|a1 [|a2 [|a3 [|]]]]]; try discriminate Hla.
  destruct items as [|b0 [|b1 [|b2 [|b3 [|]]]]]; try discriminate Hli.
  assert (self <> stats o) by congruence.
  assert (wb_stats <> stats o) by congruence.
  assert (self <> wb_stats) by congruence.
  assert (self <> stats w) by congruence.
  eexists. split; [eapply collectStats_run; eassumption|]. simpl.
  split; [heap_lookup|].
  split; [heap_lookup|].
  split; [eexists; split; [apply lookup_insert_eq | split; reflexivity]|].
  split; [|repeat split].
  intros l Hl1 Hl2. rewrite !lookup_insert_ne by congruence. reflexivity.
Qed.

Lemma C10_witness :
  exists s',
    collectStats 1%positive 3%positive two_samples = (s', Ret tt)
    /\ heap s' !! 3%positive
       = Some (CStats {| name := "bdi0_1"; stats := 4%positive; avg_bw := 5 |})
    /\ heap s' !! stats {| name := "bdi0_1"; stats := 4%positive; avg_bw := 5 |}
       = Some (CList [10; 20; 30; 40])
    /\ (exists o', heap s' !! 1%positive = Some (CStats o')
                   /\ name o' = name {| name := "bdi0"; stats := 2%positive; avg_bw := 3 |}
                   /\ stats o' = stats {| name := "bdi0"; stats := 2%positive; avg_bw := 3 |})
    /\ (forall l, l <> 1%positive ->
                  l <> stats {| name := "bdi0"; stats := 2%positive; avg_bw := 3 |} ->
                  heap s' !! l = heap two_samples !! l)
    /\ trace s' = trace two_samples
    /\ Stats_table_fmt s' = Stats_table_fmt two_samples
    /\ Stats_now s' = Stats_now two_samples
    /\ exit_req s' = exit_req two_samples.
Proof.
  apply (C10_collectStats_frame two_samples 1%positive 3%positive
           {| name := "bdi0"; stats := 2%positive; avg_bw := 3 |}
           {| name := "bdi0_1"; stats := 4%positive; avg_bw := 5 |}
           [1; 2; 3; 4] [10; 20; 30; 40]).
  - reflexivity.
  - reflexivity.
  - reflexivity.
  - reflexivity.
  - reflexivity.
  - reflexivity.
  - simpl. discriminate.
Defined.

(** ** Printing a sample *)

Lemma table_row_str_run s self o c0 c1 c2 c3 :
  heap s !! self = Some (CStats o) ->
  heap s !! stats o = Some (CList [c0; c1; c2; c3]) ->
  table_row_str self s =
    (s, Ret (ljust 16 (string_last 16 (name o)) ++ " "
             ++ rjust 10 (str c1) ++ " "
             ++ rjust 12 (str c0) ++ " "
             ++ rjust 9 (str c2) ++ " "
             ++ rjust 9 (str c3) ++ " "
             ++ rjust 9 (str (avg_bw o)) ++ " ")).
Proof.
  intros Hself Hlist. unfold table_row_str.
  do 5 run_access. reflexivity.
Qed.

Lemma dict_run s self now o c0 c1 c2 c3 :
  heap s !! self = Some (CStats o) ->
  heap s !! stats o = Some (CList [c0; c1; c2; c3]) ->
  dict self now s =
    (s, Ret [("timestamp", VFloat now); ("name", VStr (name o));
             ("writeback", VInt c1); ("reclaimable", VInt c0);
             ("dirtied", VInt c2); ("written", VInt c3);
             ("avg_wb", VInt (avg_bw o))]).
Proof.
  intros Hself Hlist. unfold dict.
  do 5 run_access. reflexivity.
Qed.

Lemma get_table_fmt_run s b : Stats_table_fmt s = Some b -> get_table_fmt s = (s, Ret b).
Proof. unfold get_table_fmt. intros ->. reflexivity. Qed.

Lemma get_now_run s t : Stats_now s = Some t -> get_now s = (s, Ret t).
Proof. unfold get_now. intros ->. reflexivity. Qed.

(** [show_stats] appends the record described by [shown]. *)
Lemma show_stats_run s self o counters table_fmt now :
  Stats_table_fmt s = Some table_fmt ->
  Stats_now s = Some now ->
  heap s !! self = Some (CStats o) ->
  heap s !! stats o = Some (CList counters) ->
  length counters = NR_WB_STAT_ITEMS ->
  show_stats self s =
    (with_trace (trace s ++ [shown table_fmt now (name o) counters (avg_bw o)])%list s, Ret tt).
Proof.
  intros Hfmt Hnow Hself Hlist Hlen.
  destruct counters as [|c0 [|c1 [|c2 [|c3 [|]]]]]; try discriminate Hlen.
  unfold show_stats.
  erewrite bind_Ret by (apply get_table_fmt_run, Hfmt).
  destruct table_fmt.
  - erewrite bind_Ret by (eapply table_row_str_run; eassumption). reflexivity.
  - erewrite bind_Ret by (apply get_now_run, Hnow).
    erewrite bind_Ret by (eapply dict_run; eassumption). reflexivity.
Qed.

(** ** The bandwidth estimate of a queue *)




(** ** One device *)

Lemma BdiStats_run bdi s :
  exists self l,
    BdiStats bdi s =
      (with_heap (<[self := CStats {| name := dev_name bdi; stats := l; avg_bw := 0 |}]>
                    (<[l := CList [0; 0; 0; 0]]> (heap s))) s,
       Ret self)
    /\ heap s !! l = None /\ heap s !! self = None /\ self <> l.
Proof.
  eexists _, _. split; [reflexivity|].
  split; [apply fresh_heap|].
  pose proof (fresh_heap (<[fresh (dom (heap s)) := CList [0; 0; 0; 0]]> (heap s))) as Hf.
  apply lookup_insert_None in Hf as [Hf Hne].
  split; [exact Hf | intros Heq; exact (Hne (eq_sym Heq))].
Qed.

(** One turn of the inner loop: the queue is sampled, added to the device
    sample, and printed under [--cgroup]. *)
Lemma main_wb_run {RE : RegexEngine} W args wb s bdi_stats o a0 a1 a2 a3 table_fmt now :
  10 <= PAGE_SHIFT W ->
  Stats_table_fmt s = Some table_fmt ->
  Stats_now s = Some now ->
  heap s !! bdi_stats = Some (CStats o) ->
  heap s !! stats o = Some (CList [a0; a1; a2; a3]) ->
  exists s',
    main_wb W args bdi_stats wb s = (s', Ret tt)
    /\ trace s' =
         (trace s ++ (if cgroup args then [shown_queue W table_fmt now wb] else []))%list
    /\ Stats_table_fmt s' = Stats_table_fmt s
    /\ Stats_now s' = Stats_now s
    /\ exit_req s' = exit_req s
    /\ heap s' !! bdi_stats =
         Some (CStats {| name := name o; stats := stats o;
                         avg_bw := avg_bw o + queue_bandwidth W wb |})
    /\ heap s' !! stats o =
         Some (CList [a0 + queue_counter W wb 0; a1 + queue_counter W wb 1;
                      a2 + queue_counter W wb 2; a3 + queue_counter W wb 3]).
Proof.
  intros Hs Hfmt Hnow Hself Hacc.
  destruct (WbStats_sample W wb s Hs) as (wb_stats & l & Hrun & Hl & Hwb & Hne).
  assert (bdi_stats <> stats o) by congruence.
  assert (bdi_stats <> wb_stats) by congruence.
  assert (bdi_stats <> l) by congruence.
  assert (stats o <> wb_stats) by congruence.
  assert (stats o <> l) by congruence.
  unfold main_wb.
  erewrite bind_Ret by exact Hrun.
  erewrite bind_Ret; cycle 1.
  { eapply (collectStats_run _ bdi_stats wb_stats); [heap_lookup | heap_lookup | heap_lookup | |].
    - simpl. rewrite lookup_insert_ne by congruence. apply lookup_insert_eq.
    - simpl. congruence. }
  rewrite with_heap_with_heap. simpl heap.
  destruct (cgroup args).
  - erewrite (show_stats_run _ wb_stats _ (queue_counters W wb) table_fmt now);
      [| exact Hfmt | exact Hnow | heap_lookup | | reflexivity].
    + eexists. split; [reflexivity|]. simpl.
      split; [reflexivity|]. split; [reflexivity|]. split; [reflexivity|]. split; [reflexivity|].
      split; [apply lookup_insert_eq|].
      rewrite lookup_insert_ne by congruence. apply lookup_insert_eq.
    + simpl. rewrite !lookup_insert_ne by congruence. apply lookup_insert_eq.
  - eexists. split; [reflexivity|]. simpl.
    split; [symmetry; apply app_nil_r|].
    split; [reflexivity|]. split; [reflexivity|]. split; [reflexivity|].
    split; [apply lookup_insert_eq|].
    rewrite lookup_insert_ne by congruence. apply lookup_insert_eq.
Qed.

(** The inner loop, started with any totals in the device sample: each
    queue adds its counters and its bandwidth. *)
Lemma main_wb_loop {RE : RegexEngine} W args wbs : forall s bdi_stats o a0 a1 a2 a3 table_fmt now d,
  10 <= PAGE_SHIFT W ->
  Stats_table_fmt s = Some table_fmt ->
  Stats_now s = Some now ->
  heap s !! bdi_stats = Some (CStats o) ->
  heap s !! stats o = Some (CList [a0; a1; a2; a3]) ->
  let bdi := {| dev_name := d; wb_list := wbs |} in
  exists s',
    for_each wbs (main_wb W args bdi_stats) s = (s', Ret tt)
    /\ trace s' =
         (trace s ++ (if cgroup args then map (shown_queue W table_fmt now) wbs else []))%list
    /\ Stats_table_fmt s' = Stats_table_fmt s
    /\ Stats_now s' = Stats_now s
    /\ exit_req s' = exit_req s
    /\ heap s' !! bdi_stats =
         Some (CStats {| name := name o; stats := stats o;
                         avg_bw := avg_bw o + device_bandwidth W bdi |})
    /\ heap s' !! stats o =
         Some (CList [a0 + device_counter W bdi 0; a1 + device_counter W bdi 1;
                      a2 + device_counter W bdi 2; a3 + device_counter W bdi 3]).
Proof.
  induction wbs as [|wb wbs IH];
    intros s bdi_stats o a0 a1 a2 a3 table_fmt now d Hs Hfmt Hnow Hself Hacc.
  - exists s. simpl. unfold device_bandwidth, device_counter. simpl.
    rewrite !Z.add_0_r. destruct (cgroup args), o; rewrite app_nil_r; repeat split; assumption.
  - destruct (main_wb_run W args wb s bdi_stats o a0 a1 a2 a3 table_fmt now Hs Hfmt Hnow Hself Hacc)
      as (s1 & Hrun1 & Htr1 & Hf1 & Hn1 & He1 & Hb1 & Hc1).
    destruct (IH s1 bdi_stats _ _ _ _ _ table_fmt now d Hs
                (eq_trans Hf1 Hfmt) (eq_trans Hn1 Hnow) Hb1 Hc1)
      as (s' & Hrun' & Htr & Hf' & Hn' & He' & Hb' & Hc').
    simpl in Hb', Hc'.
    exists s'. simpl for_each.
    split; [erewrite bind_Ret by exact Hrun1; exact Hrun'|].
    split; [rewrite Htr, Htr1; destruct (cgroup args); rewrite <- app_assoc; reflexivity|].
    split; [congruence|]. split; [congruence|]. split; [congruence|].
    split.
    + rewrite Hb'. simpl. unfold device_bandwidth. simpl. do 3 f_equal. lia.
    + rewrite Hc'. simpl. unfold device_counter. simpl. rewrite !Z.add_assoc. reflexivity.
Qed.

(** A device the filter rejects: the device sample is built, nothing is
    printed, and the queues play no part. *)
Lemma main_bdi_skipped {RE : RegexEngine} W args filter_re bdi s :
  passes filter_re (dev_name bdi) = false ->
  exists h,
    (forall queues,
       main_bdi W args filter_re {| dev_name := dev_name bdi; wb_list := queues |} s
       = (with_heap h s, Ret tt))
    /\ main_bdi W args filter_re bdi s = (with_heap h s, Ret tt).
Proof.
  intros Hrej.
  assert (forall queues,
            main_bdi W args filter_re {| dev_name := dev_name bdi; wb_list := queues |} s
            = (with_heap
                 (<[fresh (dom (<[fresh (dom (heap s)) := CList [0; 0; 0; 0]]> (heap s))) :=
                      CStats {| name := dev_name bdi; stats := fresh (dom (heap s)); avg_bw := 0 |}]>
                    (<[fresh (dom (heap s)) := CList [0; 0; 0; 0]]> (heap s))) s, Ret tt)) as Hall.
  { intros queues. unfold main_bdi.
    erewrite (bind_Ret (BdiStats _)) by reflexivity.
    erewrite (bind_Ret (get_stats _)) by (apply get_stats_run; simpl; apply lookup_insert_eq).
    simpl. rewrite Hrej. reflexivity. }
  eexists. split; [exact Hall|].
  destruct bdi as [d wbs]. apply (Hall wbs).
Qed.

(** A device the filter accepts: its queues are added up from zero and the
    records described by [device_events] are printed. *)
Lemma main_bdi_run {RE : RegexEngine} W args filter_re bdi s table_fmt now :
  passes filter_re (dev_name bdi) = true ->
  10 <= PAGE_SHIFT W ->
  Stats_table_fmt s = Some table_fmt ->
  Stats_now s = Some now ->
  exists s',
    main_bdi W args filter_re bdi s = (s', Ret tt)
    /\ trace s' = (trace s ++ device_events W (cgroup args) table_fmt now bdi)%list
    /\ Stats_table_fmt s' = Stats_table_fmt s
    /\ Stats_now s' = Stats_now s
    /\ exit_req s' = exit_req s.
Proof.
  intros Hacc Hs Hfmt Hnow. destruct bdi as [d wbs]. simpl in Hacc.
  destruct (BdiStats_run {| dev_name := d; wb_list := wbs |} s)
    as (bdi_stats & l & Hrun & Hl & Hself & Hne).
  set (s1 := with_heap _ s) in Hrun.
  destruct (main_wb_loop W args wbs s1 bdi_stats
              {| name := d; stats := l; avg_bw := 0 |} 0 0 0 0 table_fmt now d Hs Hfmt Hnow)
    as (s2 & Hloop & Htr2 & Hf2 & Hn2 & He2 & Hb2 & Hc2).
  { subst s1. simpl. apply lookup_insert_eq. }
  { subst s1. simpl. rewrite lookup_insert_ne by congruence. apply lookup_insert_eq. }
  simpl in Hb2, Hc2.
  unfold main_bdi.
  erewrite (bind_Ret (BdiStats _)) by exact Hrun.
  erewrite (bind_Ret (get_stats _)) by (apply get_stats_run; subst s1; simpl; apply lookup_insert_eq).
  cbn [name dev_name]. rewrite Hacc. cbn [negb].
  erewrite bind_Ret by exact Hloop.
  erewrite bind_Ret; cycle 1.
  { eapply show_stats_run;
      [rewrite Hf2; exact Hfmt | rewrite Hn2; exact Hnow | exact Hb2 | exact Hc2 | reflexivity]. }
  unfold device_events, shown_device, device_counters, range, NR_WB_STAT_ITEMS.
  simpl seq. simpl map. simpl name. simpl avg_bw.
  destruct (cgroup args); [|rewrite app_nil_r].
  - erewrite bind_Ret by (apply get_table_fmt_run; simpl; rewrite Hf2; exact Hfmt).
    destruct table_fmt.
    + eexists. split; [reflexivity|]. simpl.
      split; [rewrite Htr2; subst s1; simpl; rewrite <- !app_assoc; reflexivity|].
      split; [exact Hf2|]. split; [exact Hn2 | exact He2].
    + eexists. split; [reflexivity|]. simpl.
      split; [rewrite Htr2; subst s1; simpl; rewrite <- !app_assoc; reflexivity|].
      split; [exact Hf2|]. split; [exact Hn2 | exact He2].
  - eexists. split; [reflexivity|]. simpl.
    split; [rewrite Htr2; subst s1; simpl; rewrite <- !app_assoc; reflexivity|].
    split; [exact Hf2|]. split; [exact Hn2 | exact He2].
Qed.

(** ** One pass *)

Lemma main_bdi_loop {RE : RegexEngine} W args filter_re table_fmt now bdis : forall s,
  10 <= PAGE_SHIFT W ->
  Stats_table_fmt s = Some table_fmt ->
  Stats_now s = Some now ->
  exists s',
    for_each bdis (main_bdi W args filter_re) s = (s', Ret tt)
    /\ trace s' =
         (trace s ++ flat_map (fun bdi => if passes filter_re (dev_name bdi)
                                          then device_events W (cgroup args) table_fmt now bdi
                                          else []) bdis)%list
    /\ Stats_table_fmt s' = Stats_table_fmt s
    /\ Stats_now s' = Stats_now s
    /\ exit_req s' = exit_req s.
Proof.
  induction bdis as [|bdi bdis IH]; intros s Hs Hfmt Hnow.
  - exists s. simpl. rewrite app_nil_r. repeat split; reflexivity.
  - simpl for_each. simpl flat_map.
    destruct (passes filter_re (dev_name bdi)) eqn:Hp.
    + destruct (main_bdi_run W args filter_re bdi s table_fmt now Hp Hs Hfmt Hnow)
        as (s1 & Hrun & Htr & Hf & Hn & He).
      destruct (IH s1 Hs (eq_trans Hf Hfmt) (eq_trans Hn Hnow)) as (s' & Hrun' & Htr' & Hf' & Hn' & He').
      exists s'. erewrite bind_Ret by exact Hrun.
      split; [exact Hrun'|]. split; [rewrite Htr', Htr, <- app_assoc; reflexivity|].
      repeat split; congruence.
    + destruct (main_bdi_skipped W args filter_re bdi s Hp) as (h & _ & Hrun).
      destruct (IH (with_heap h s) Hs Hfmt Hnow) as (s' & Hrun' & Htr' & Hf' & Hn' & He').
      exists s'. erewrite bind_Ret by exact Hrun.
      split; [exact Hrun'|]. split; [exact Htr'|].
      repeat split; assumption.
Qed.

Lemma main_pass_run {RE : RegexEngine} W args filter_re n s :
  10 <= PAGE_SHIFT W ->
  Stats_table_fmt s = Some (negb (json args)) ->
  exists s',
    main_pass W args filter_re n s = (s', Ret tt)
    /\ trace s' = (trace s ++ pass_events W args filter_re n)%list
    /\ Stats_table_fmt s' = Stats_table_fmt s
    /\ Stats_now s' = Some (time_time W n)
    /\ exit_req s' = exit_req s.
Proof.
  intros Hs Hfmt. unfold main_pass, pass_events.
  erewrite bind_Ret by reflexivity.
  set (s1 := {| heap := heap s; trace := trace s; Stats_table_fmt := Stats_table_fmt s;
                Stats_now := Some (time_time W n); exit_req := exit_req s |}).
  assert (exists s2, show_header s1 = (s2, Ret tt)
                     /\ trace s2 = (trace s ++ (if json args then []
                                                else [Stdout ""; Stdout table_header_str]))%list
                     /\ Stats_table_fmt s2 = Stats_table_fmt s
                     /\ Stats_now s2 = Some (time_time W n)
                     /\ exit_req s2 = exit_req s) as (s2 & Hhdr & Htr2 & Hf2 & Hn2 & He2).
  { unfold show_header. erewrite bind_Ret by (apply get_table_fmt_run; exact Hfmt).
    destruct (json args); simpl negb; cbv iota.
    - exists s1. rewrite app_nil_r. repeat split; reflexivity.
    - eexists. split; [reflexivity|]. simpl. rewrite <- app_assoc. repeat split; reflexivity. }
  erewrite bind_Ret by exact Hhdr.
  destruct (main_bdi_loop W args filter_re (negb (json args)) (time_time W n) (bdi_list W n) s2 Hs)
    as (s' & Hrun & Htr & Hf & Hn & He); [congruence | exact Hn2 |].
  exists s'. split; [exact Hrun|].
  split; [rewrite Htr, Htr2, <- app_assoc; reflexivity|].
  repeat split; congruence.
Qed.

(** C1.  In every pass, from whatever state the previous passes left
    behind, each device the filter accepts is reported with counters that
    are, position by position, the sums of the counters of the queues on
    its list in that pass, and with the sum of their bandwidth estimates;
    nothing from an earlier pass enters the sums. *)
Theorem C1_device_totals_are_sums {RE : RegexEngine} W args filter_re n s :
  10 <= PAGE_SHIFT W ->
  Stats_table_fmt s = Some (negb (json args)) ->
  exists s',
    main_pass W args filter_re n s = (s', Ret tt)
    /\ trace s' = (trace s ++ pass_events W args filter_re n)%list
    /\ forall bdi,
         In bdi (bdi_list W n) ->
         passes filter_re (dev_name bdi) = true ->
         In (shown (negb (json args)) (time_time W n) (dev_name bdi)
               (map (fun i => total (map (fun wb => queue_counter W wb i) (wb_list bdi)))
                    (range NR_WB_STAT_ITEMS))
               (total (map (queue_bandwidth W) (wb_list bdi))))
            (pass_events W args filter_re n).
Proof.
  intros Hs Hfmt.
  destruct (main_pass_run W args filter_re n s Hs Hfmt) as (s' & Hrun & Htr & _).
  exists s'. split; [exact Hrun|]. split; [exact Htr|].
  intros bdi Hin Hp. unfold pass_events.
  apply in_or_app. right. apply in_flat_map. exists bdi. split; [exact Hin|].
  rewrite Hp. unfold device_events. apply in_or_app. right. left. reflexivity.
Qed.

Lemma C1_witness :
  exists s',
    main_pass (RE := MiniRe.engine) (Demo.world Demo.never Demo.never)
      (Demo.args [] 0%float false true) None 0 (entered false) = (s', Ret tt)
    /\ trace s' =
         (trace (entered false)
          ++ pass_events (RE := MiniRe.engine) (Demo.world Demo.never Demo.never)
               (Demo.args [] 0%float false true) None 0)%list
    /\ forall bdi,
         In bdi (bdi_list (Demo.world Demo.never Demo.never) 0) ->
         passes (RE := MiniRe.engine) None (dev_name bdi) = true ->
         In (shown (negb (json (Demo.args [] 0%float false true)))
               (time_time (Demo.world Demo.never Demo.never) 0) (dev_name bdi)
               (map (fun i => total (map (fun wb =>
                                            queue_counter (Demo.world Demo.never Demo.never) wb i)
                                         (wb_list bdi)))
                    (range NR_WB_STAT_ITEMS))
               (total (map (queue_bandwidth (Demo.world Demo.never Demo.never)) (wb_list bdi))))
            (pass_events (RE := MiniRe.engine) (Demo.world Demo.never Demo.never)
               (Demo.args [] 0%float false true) None 0).
Proof.
  apply (C1_device_totals_are_sums (RE := MiniRe.engine)
           (Demo.world Demo.never Demo.never) (Demo.args [] 0%float false true) None 0
           (entered false)).
  - simpl. lia.
  - reflexivity.
Defined.

(** ** The filter *)

Lemma compile_filter_run {RE : RegexEngine} args s :
  compile_filter args s =
    (s, match bdi args with
        | [] => Ret None
        | _ :: _ =>
            match join "|" (bdi args) with
            | EmptyString => Ret None
            | String _ _ =>
                match re_compile (join "|" (bdi args)) with
                | Some p => Ret (Some p)
                | None => Raise re_error
                end
            end
        end).
Proof.
  unfold compile_filter. destruct (bdi args) as [|x l]; [reflexivity|].
  destruct (join "|" (x :: l)); [reflexivity|].
  destruct (re_compile _); reflexivity.
Qed.


Lemma MiniRe_empty_pattern : empty_pattern_matches (RE := MiniRe.engine).
Proof.
  exists MiniRe.Eps. split; [reflexivity|]. intros s. destruct s; reflexivity.
Qed.


(** The example of the specification: with the single pattern [^nvme],
    [nvme0n1] is accepted and [sda] is not. *)
Example filter_nvme :
  exists filter_re,
    compile_filter (RE := MiniRe.engine) (Demo.args ["^nvme"] 0%float false false) initial
    = (initial, Ret filter_re)
    /\ passes filter_re "nvme0n1" = true
    /\ passes filter_re "sda" = false.
Proof. eexists. split; [reflexivity|]. split; reflexivity. Qed.

(** ** The table row *)

(** C8, as the code has it.  A table row is six columns, each followed by
    one blank, in the order name, writeback, reclaimable, dirtied,
    written, average bandwidth.  The name column holds the last 16
    characters of the name flush left in exactly 16 characters; the five
    numeric columns hold the decimal text flush right in at least 10, 12,
    9, 9 and 9 characters, and are wider when the text is longer.  The
    dictionary of the structured output carries the whole name, and it is
    the whole device name that decides whether a device is skipped. *)
Theorem C8_table_row {RE : RegexEngine} W args s self o reclaimable writeback dirtied written :
  heap s !! self = Some (CStats o) ->
  heap s !! stats o = Some (CList [reclaimable; writeback; dirtied; written]) ->
  exists f1 f2 f3 f4 f5 f6,
    table_row_str self s =
      (s, Ret (f1 ++ " " ++ f2 ++ " " ++ f3 ++ " " ++ f4 ++ " " ++ f5 ++ " " ++ f6 ++ " "))
    /\ left_aligned 16 (string_last 16 (name o)) f1
    /\ right_aligned_min 10 (str writeback) f2
    /\ right_aligned_min 12 (str reclaimable) f3
    /\ right_aligned_min 9 (str dirtied) f4
    /\ right_aligned_min 9 (str written) f5
    /\ right_aligned_min 9 (str (avg_bw o)) f6
    /\ String.length (string_last 16 (name o)) = Nat.min 16 (String.length (name o))
    /\ (exists pre, name o = pre ++ string_last 16 (name o))
    /\ (forall now, exists d,
          dict self now s = (s, Ret d) /\ In ("name", VStr (name o)) d)
    /\ (forall filter_re bdi s0,
          passes filter_re (dev_name bdi) = false ->
          exists s1, main_bdi W args filter_re bdi s0 = (s1, Ret tt) /\ trace s1 = trace s0).
Proof.
  intros Hself Hlist.
  destruct (string_last_suffix 16 (name o)) as [Hlen Hsuf].
  eexists _, _, _, _, _, _.
  split; [eapply table_row_str_run; eassumption|].
  split; [apply ljust_left_aligned; rewrite Hlen; lia|].
  do 5 (split; [apply rjust_right_aligned_min|]).
  split; [exact Hlen|]. split; [exact Hsuf|]. split.
  - intros now. eexists. split; [eapply dict_run; eassumption|]. right. left. reflexivity.
  - intros filter_re bdi s0 Hrej.
    destruct (main_bdi_skipped W args filter_re bdi s0 Hrej) as (h & _ & Hrun).
    exists (with_heap h s0). split; [exact Hrun | reflexivity].
Qed.

Lemma C8_witness :
  exists f1 f2 f3 f4 f5 f6,
    table_row_str 1%positive (one_sample "a_rather_long_device_name" [48; 24; 96; 72] 5) =
      (one_sample "a_rather_long_device_name" [48; 24; 96; 72] 5,
       Ret (f1 ++ " " ++ f2 ++ " " ++ f3 ++ " " ++ f4 ++ " " ++ f5 ++ " " ++ f6 ++ " "))
    /\ left_aligned 16 (string_last 16 "a_rather_long_device_name") f1
    /\ right_aligned_min 10 (str 24) f2
    /\ right_aligned_min 12 (str 48) f3
    /\ right_aligned_min 9 (str 96) f4
    /\ right_aligned_min 9 (str 72) f5
    /\ right_aligned_min 9 (str 5) f6
    /\ String.length (string_last 16 "a_rather_long_device_name")
       = Nat.min 16 (String.length "a_rather_long_device_name")
    /\ (exists pre, "a_rather_long_device_name"
                    = pre ++ string_last 16 "a_rather_long_device_name")
    /\ (forall now, exists d,
          dict 1%positive now (one_sample "a_rather_long_device_name" [48; 24; 96; 72] 5)
          = (one_sample "a_rather_long_device_name" [48; 24; 96; 72] 5, Ret d)
          /\ In ("name", VStr "a_rather_long_device_name") d)
    /\ (forall filter_re bdi s0,
          passes (RE := MiniRe.engine) filter_re (dev_name bdi) = false ->
          exists s1,
            main_bdi (Demo.world Demo.never Demo.never) (Demo.args [] 0%float false false)
              filter_re bdi s0 = (s1, Ret tt)
            /\ trace s1 = trace s0).
Proof.
  apply (C8_table_row (RE := MiniRe.engine) (Demo.world Demo.never Demo.never)
           (Demo.args [] 0%float false false)
           (one_sample "a_rather_long_device_name" [48; 24; 96; 72] 5) 1%positive
           {| name := "a_rather_long_device_name"; stats := 2%positive; avg_bw := 5 |}).
  - reflexivity.
  - reflexivity.
Defined.

(** C8 fails as stated.  The row of a device named [bdi0] starts with the
    name, not with blanks: the name column is flush left.  And a counter
    of ten digits makes its column, hence the row, one character longer
    than the six fixed widths allow. *)
Lemma C8_counterexample :
  (table_row_str 1%positive (one_sample "bdi0" [48; 24; 96; 72] 0) =
     (one_sample "bdi0" [48; 24; 96; 72] 0,
      Ret "bdi0                     24           48        96        72         0 ")
   /\ ~ six_right_aligned_columns "bdi0" 24 48 96 72 0
         "bdi0                     24           48        96        72         0 ")
  /\ (table_row_str 1%positive (one_sample "nvme0n1" [0; 12; 0; 4938271560] 0) =
        (one_sample "nvme0n1" [0; 12; 0; 4938271560] 0,
         Ret "nvme0n1                  12            0         0 4938271560         0 ")
      /\ ~ six_right_aligned_columns "nvme0n1" 12 0 0 4938271560 0
            "nvme0n1                  12            0         0 4938271560         0 ").
Proof.
  split; (split; [vm_compute; reflexivity|]).
  - intros (f1 & f2 & f3 & f4 & f5 & f6 & Hrow & [Hlen (n & Hf1)] & _).
    subst f1. rewrite length_append, length_spaces in Hlen.
    assert (n = 12%nat) as -> by (simpl in Hlen; lia).
    cbv in Hrow. discriminate Hrow.
  - intros (f1 & f2 & f3 & f4 & f5 & f6 & Hrow & [H1 _] & [H2 _] & [H3 _] & [H4 _] & [H5 _] & [H6 _]).
    apply (f_equal String.length) in Hrow.
    rewrite !length_append, H1, H2, H3, H4, H5, H6 in Hrow. simpl in Hrow. lia.
Qed.

(** ** The loop *)

Lemma main_enters_loop {RE : RegexEngine} W args filter_re fuel :
  compile_filter args initial = (initial, Ret filter_re) ->
  main W args fuel initial = main_loop W args filter_re fuel 0 (entered (json args)).
Proof.
  intros Hc. rewrite compile_filter_run in Hc. injection Hc as Hc.
  unfold main. erewrite bind_Ret by reflexivity.
  erewrite bind_Ret by (rewrite compile_filter_run, Hc; reflexivity).
  reflexivity.
Qed.

Lemma shown_not_Sleep table_fmt now name counters bw secs :
  shown table_fmt now name counters bw <> Sleep secs.
Proof. unfold shown. destruct table_fmt; discriminate. Qed.

(** A pass does not sleep. *)
Lemma pass_events_no_Sleep {RE : RegexEngine} W args filter_re n secs :
  ~ In (Sleep secs) (pass_events W args filter_re n).
Proof.
  unfold pass_events. intros Hin. apply in_app_or in Hin as [Hin|Hin].
  - destruct (json args); simpl in Hin; intuition discriminate.
  - apply in_flat_map in Hin as (bdi & _ & Hin).
    destruct (passes filter_re (dev_name bdi)); [|contradiction].
    unfold device_events in Hin.
    apply in_app_or in Hin as [Hin|Hin]; [|apply in_app_or in Hin as [Hin|Hin]].
    + destruct (cgroup args); [|contradiction].
      apply in_map_iff in Hin as (wb & Heq & _). exact (shown_not_Sleep _ _ _ _ _ _ Heq).
    + destruct Hin as [Heq|[]]. exact (shown_not_Sleep _ _ _ _ _ _ Heq).
    + destruct (cgroup args && negb (json args)); simpl in Hin; intuition discriminate.
Qed.

(** The loop ends at the first evaluation of its condition that finds a
    stop requested. *)
Lemma main_loop_stops {RE : RegexEngine} W args filter_re fuel n s :
  exit_req s || sigint_before W n = true ->
  exists s',
    main_loop W args filter_re (S fuel) n s = (s', Ret tt)
    /\ trace s' = trace s /\ exit_req s' = true.
Proof.
  intros Hstop. simpl main_loop. unfold deliver.
  destruct (sigint_before W n).
  - erewrite bind_Ret by reflexivity. simpl. eexists.
    split; [reflexivity|]. split; reflexivity.
  - rewrite orb_false_r in Hstop. erewrite bind_Ret by reflexivity. rewrite Hstop.
    eexists. split; [reflexivity|]. split; [reflexivity | exact Hstop].
Qed.

(** Otherwise the pass runs to its end; then the loop is left if the
    interval is zero, and [time.sleep] is called if it is not. *)
Lemma main_loop_pass {RE : RegexEngine} W args filter_re fuel n s :
  exit_req s = false ->
  sigint_before W n = false ->
  Stats_table_fmt s = Some (negb (json args)) ->
  10 <= PAGE_SHIFT W ->
  exists s1,
    trace s1 = (trace s ++ pass_events W args filter_re n)%list
    /\ exit_req s1 = sigint_during W n
    /\ Stats_table_fmt s1 = Stats_table_fmt s
    /\ Stats_now s1 = Some (time_time W n)
    /\ main_loop W args filter_re (S fuel) n s =
         if PrimFloat.eqb (interval args) 0%float then (s1, Ret tt)
         else match time_sleep W (interval args) with
              | None =>
                  main_loop W args filter_re fuel (S n)
                    (with_trace (trace s1 ++ [Sleep (interval args)]) s1)
              | Some e => (with_trace (trace s1 ++ [Sleep (interval args)]) s1, Raise e)
              end.
Proof.
  intros Hreq Hbefore Hfmt Hs.
  set (s0 := fst (deliver (sigint_during W n) s)).
  assert (deliver (sigint_during W n) s = (s0, Ret tt)) as Hd
    by (unfold s0, deliver; destruct (sigint_during W n); reflexivity).
  assert (exit_req s0 = sigint_during W n) as He0
    by (unfold s0, deliver; destruct (sigint_during W n); [reflexivity | exact Hreq]).
  assert (trace s0 = trace s /\ Stats_table_fmt s0 = Stats_table_fmt s) as [Ht0 Hf0]
    by (unfold s0, deliver; destruct (sigint_during W n); split; reflexivity).
  destruct (main_pass_run W args filter_re n s0 Hs (eq_trans Hf0 Hfmt))
    as (s1 & Hrun & Htr & Hf1 & Hn1 & He1).
  exists s1.
  split; [congruence|]. split; [congruence|]. split; [congruence|]. split; [exact Hn1|].
  simpl main_loop. rewrite Hbefore. unfold deliver at 1.
  erewrite bind_Ret by reflexivity. rewrite Hreq.
  erewrite bind_Ret by exact Hd.
  erewrite bind_Ret by exact Hrun.
  destruct (PrimFloat.eqb (interval args) 0%float); [reflexivity|].
  destruct (time_sleep W (interval args)) as [e|] eqn:Hsl.
  - erewrite bind_Raise; [reflexivity|].
    unfold sleep. erewrite bind_Ret by reflexivity. rewrite Hsl. reflexivity.
  - erewrite bind_Ret; [reflexivity|].
    unfold sleep. erewrite bind_Ret by reflexivity. rewrite Hsl. reflexivity.
Qed.

(** C6, as the code has it.  With an interval equal to zero, and no stop
    requested by the time the loop condition is first evaluated, [main]
    runs one pass and returns: what it has printed is the output of pass 0
    and nothing else, whether or not SIGINT arrived during that pass, and
    [time.sleep] was not called. *)
Theorem C6_one_shot {RE : RegexEngine} W args filter_re fuel :
  PrimFloat.eqb (interval args) 0%float = true ->
  compile_filter args initial = (initial, Ret filter_re) ->
  sigint_before W 0 = false ->
  10 <= PAGE_SHIFT W ->
  exists s',
    main W args (S fuel) initial = (s', Ret tt)
    /\ trace s' = pass_events W args filter_re 0
    /\ Stats_now s' = Some (time_time W 0)
    /\ exit_req s' = sigint_during W 0
    /\ forall secs, ~ In (Sleep secs) (trace s').
Proof.
  intros Hzero Hc Hbefore Hs.
  destruct (main_loop_pass W args filter_re fuel 0 (entered (json args)))
    as (s1 & Htr & He & _ & Hn & Hrun); [reflexivity | exact Hbefore | reflexivity | exact Hs |].
  rewrite Hzero in Hrun.
  exists s1. split; [rewrite (main_enters_loop W args filter_re) by exact Hc; exact Hrun|].
  split; [exact Htr|]. split; [exact Hn|]. split; [exact He|].
  intros secs. rewrite Htr. apply pass_events_no_Sleep.
Qed.

Lemma C6_witness :
  exists s',
    main (RE := MiniRe.engine) (Demo.world Demo.never (Demo.in_pass 0))
      (Demo.args ["^bdi"] 0%float false true) 1 initial = (s', Ret tt)
    /\ trace s' = pass_events (RE := MiniRe.engine) (Demo.world Demo.never (Demo.in_pass 0))
                    (Demo.args ["^bdi"] 0%float false true)
                    (re_compile (RegexEngine := MiniRe.engine) "^bdi") 0
    /\ Stats_now s' = Some (time_time (Demo.world Demo.never (Demo.in_pass 0)) 0)
    /\ exit_req s' = sigint_during (Demo.world Demo.never (Demo.in_pass 0)) 0
    /\ forall secs, ~ In (Sleep secs) (trace s').
Proof.
  apply (C6_one_shot (RE := MiniRe.engine) (Demo.world Demo.never (Demo.in_pass 0))
           (Demo.args ["^bdi"] 0%float false true)
           (re_compile (RegexEngine := MiniRe.engine) "^bdi") 0).
  - reflexivity.
  - reflexivity.
  - reflexivity.
  - simpl. lia.
Defined.

(** C6 fails as stated.  SIGINT arrives once the handler is installed and
    before the loop condition is evaluated for the first time: with an
    interval of zero [main] returns without having made a pass, although
    a pass would have printed the header and a device. *)
Lemma C6_counterexample :
  PrimFloat.eqb (interval (Demo.args ["^bdi"] 0%float false false)) 0%float = true
  /\ sigint_before (Demo.world (Demo.in_pass 0) Demo.never) 0 = true
  /\ (exists s',
        main (RE := MiniRe.engine) (Demo.world (Demo.in_pass 0) Demo.never)
          (Demo.args ["^bdi"] 0%float false false) 3 initial = (s', Ret tt)
        /\ trace s' = []
        /\ Stats_now s' = None)
  /\ pass_events (RE := MiniRe.engine) (Demo.world (Demo.in_pass 0) Demo.never)
       (Demo.args ["^bdi"] 0%float false false)
       (re_compile (RegexEngine := MiniRe.engine) "^bdi") 0
     = [Stdout "";
        Stdout "                  writeback  reclaimable   dirtied   written    avg_bw";
        Stdout "bdi0                     24           48        96        72         0 "].
Proof.
  split; [reflexivity|]. split; [reflexivity|]. split.
  - eexists. split; [vm_compute; reflexivity|]. split; reflexivity.
  - vm_compute. reflexivity.
Qed.

(** With an interval other than zero the loop runs pass after pass, each
    followed by a call of [time.sleep], up to the first evaluation of its
    condition by which a stop has been requested. *)
Lemma main_loop_until {RE : RegexEngine} W args filter_re d : forall n s fuel,
  PrimFloat.eqb (interval args) 0%float = false ->
  time_sleep W (interval args) = None ->
  10 <= PAGE_SHIFT W ->
  Stats_table_fmt s = Some (negb (json args)) ->
  exit_req s || sigint_before W n = stop_by W n ->
  (forall m, (n <= m < n + d)%nat -> stop_by W m = false) ->
  stop_by W (n + d) = true ->
  (d < fuel)%nat ->
  exists s',
    main_loop W args filter_re fuel n s = (s', Ret tt)
    /\ trace s' =
         (trace s ++ flat_map (fun m => pass_events W args filter_re m ++ [Sleep (interval args)])
                      (seq n d))%list
    /\ exit_req s' = true.
Proof.
  induction d as [|d IH]; intros n s fuel Hnz Hsl Hs Hfmt Hreq Hrun Hstop Hfuel.
  - destruct fuel as [|fuel]; [lia|].
    rewrite Nat.add_0_r in Hstop. rewrite Hstop in Hreq.
    destruct (main_loop_stops W args filter_re fuel n s Hreq) as (s' & Hl & Htr & He).
    exists s'. simpl. rewrite app_nil_r. repeat split; assumption.
  - destruct fuel as [|fuel]; [lia|].
    rewrite (Hrun n) in Hreq by lia. apply orb_false_elim in Hreq as [Hreq Hbefore].
    destruct (main_loop_pass W args filter_re fuel n s Hreq Hbefore Hfmt Hs)
      as (s1 & Htr1 & He1 & Hf1 & _ & Hl).
    rewrite Hnz, Hsl in Hl.
    destruct (IH (S n) (with_trace (trace s1 ++ [Sleep (interval args)]) s1) fuel Hnz Hsl Hs)
      as (s' & Hl' & Htr' & He').
    + simpl. congruence.
    + simpl. rewrite He1, (Hrun n) by lia. reflexivity.
    + intros m Hm. apply Hrun. lia.
    + rewrite <- Hstop. f_equal. lia.
    + lia.
    + exists s'. split; [congruence|]. split; [|exact He'].
      rewrite Htr'. simpl. rewrite Htr1, <- !app_assoc. reflexivity.
Qed.

(** C7, as the code has it.  With an interval other than zero, every pass
    that is started is completed and is followed by a call of
    [time.sleep] with the interval, also when SIGINT arrived during that
    pass; the request is acted on at the evaluation of the loop condition
    that follows the sleep.  So a run ends having made as many passes, and
    as many sleeps, as there were evaluations of the condition that found
    no stop requested. *)
Theorem C7_sleep_after_every_pass {RE : RegexEngine} W args filter_re k fuel :
  PrimFloat.eqb (interval args) 0%float = false ->
  time_sleep W (interval args) = None ->
  compile_filter args initial = (initial, Ret filter_re) ->
  10 <= PAGE_SHIFT W ->
  stop_by W k = true ->
  (forall m, (m < k)%nat -> stop_by W m = false) ->
  (k < fuel)%nat ->
  exists s',
    main W args fuel initial = (s', Ret tt)
    /\ trace s' =
         flat_map (fun m => pass_events W args filter_re m ++ [Sleep (interval args)])%list
           (seq 0 k)
    /\ exit_req s' = true.
Proof.
  intros Hnz Hsl Hc Hs Hstop Hrun Hfuel.
  rewrite (main_enters_loop W args filter_re fuel Hc).
  destruct (main_loop_until W args filter_re k 0 (entered (json args)) fuel Hnz Hsl Hs)
    as (s' & Hl & Htr & He); try assumption; try reflexivity.
  - intros m Hm. apply Hrun. lia.
  - exists s'. repeat split; assumption.
Qed.

Lemma C7_witness :
  exists s',
    main (RE := MiniRe.engine) (Demo.world Demo.never (Demo.in_pass 1))
      (Demo.args [] 1%float true false) 3 initial = (s', Ret tt)
    /\ trace s' =
         flat_map (fun m => pass_events (RE := MiniRe.engine)
                              (Demo.world Demo.never (Demo.in_pass 1))
                              (Demo.args [] 1%float true false) None m
                            ++ [Sleep (interval (Demo.args [] 1%float true false))])%list
           (seq 0 2)
    /\ exit_req s' = true.
Proof.
  apply (C7_sleep_after_every_pass (RE := MiniRe.engine)
           (Demo.world Demo.never (Demo.in_pass 1)) (Demo.args [] 1%float true false) None 2 3).
  - reflexivity.
  - reflexivity.
  - reflexivity.
  - simpl. lia.
  - reflexivity.
  - intros m Hm. destruct m as [|[|m]]; [reflexivity | reflexivity | lia].
  - lia.
Defined.

(** C7 fails as stated.  SIGINT arrives during the first pass of a run
    with an interval of one second; the pass is completed, and then
    [time.sleep] is called all the same before the loop ends. *)
Lemma C7_counterexample :
  sigint_during (Demo.world Demo.never (Demo.in_pass 0)) 0 = true
  /\ exists s',
       main (RE := MiniRe.engine) (Demo.world Demo.never (Demo.in_pass 0))
         (Demo.args [] 1%float false false) 2 initial = (s', Ret tt)
       /\ trace s' =
            [Stdout "";
             Stdout "                  writeback  reclaimable   dirtied   written    avg_bw";
             Stdout "bdi0                     24           48        96        72         0 ";
             Stdout "sda                      12            0         0 4938271560       100 ";
             Sleep 1].
Proof.
  split; [reflexivity|]. eexists. split; [vm_compute; reflexivity|]. reflexivity.
Qed.

(** ** Patterns that do not compile *)

(** C9, as the code has it.  When the alternation of the patterns, joined
    by [|], does not compile, [main] raises [re.error] before the loop:
    nothing is printed, no time stamp is taken, no object is created. *)
Theorem C9_invalid_alternation {RE : RegexEngine} W args fuel :
  empty_pattern_matches ->
  re_compile (join "|" (bdi args)) = None ->
  exists s',
    main W args fuel initial = (s', Raise re_error)
    /\ trace s' = []
    /\ Stats_now s' = None
    /\ heap s' = ∅.
Proof.
  intros (p0 & Hc0 & _) Hbad.
  unfold main. erewrite bind_Ret by reflexivity.
  erewrite bind_Raise; cycle 1.
  { rewrite compile_filter_run.
    destruct (bdi args) as [|x l]; [simpl in Hbad; congruence|].
    destruct (join "|" (x :: l)) as [|c r] eqn:Hj; [congruence|].
    rewrite Hbad. reflexivity. }
  eexists. split; [reflexivity|]. repeat split; reflexivity.
Qed.

Lemma C9_witness :
  exists s',
    main (RE := MiniRe.engine) (Demo.world Demo.never Demo.never)
      (Demo.args ["sd(a"; "nvme"] 1%float false false) 5 initial = (s', Raise re_error)
    /\ trace s' = []
    /\ Stats_now s' = None
    /\ heap s' = ∅.
Proof.
  apply (C9_invalid_alternation (RE := MiniRe.engine) (Demo.world Demo.never Demo.never)
           (Demo.args ["sd(a"; "nvme"] 1%float false false) 5).
  - exists MiniRe.Eps. split; [reflexivity|]. intros s. destruct s; reflexivity.
  - reflexivity.
Defined.

(** C9 fails as stated.  Neither [(] nor [)] is a valid pattern, but the
    script compiles their alternation [(|)], which is one: the run goes
    through its pass and prints the devices. *)
Lemma C9_counterexample :
  re_compile (RegexEngine := MiniRe.engine) "(" = None
  /\ re_compile (RegexEngine := MiniRe.engine) ")" = None
  /\ exists s',
       main (RE := MiniRe.engine) (Demo.world Demo.never Demo.never)
         (Demo.args ["("; ")"] 0%float false false) 1 initial = (s', Ret tt)
       /\ trace s' =
            [Stdout "";
             Stdout "                  writeback  reclaimable   dirtied   written    avg_bw";
             Stdout "bdi0                     24           48        96        72         0 ";
             Stdout "sda                      12            0         0 4938271560       100 "].
Proof.
  split; [reflexivity|]. split; [reflexivity|].
  eexists. split; [vm_compute; reflexivity|]. reflexivity.
Qed.

(** * Properties beyond the claims *)

(** ** Unit conversion *)

Lemma K_small_pages W x : PAGE_SHIFT W < 10 -> K W x = Raise ValueError.
Proof.
  intros Hs. unfold K. destruct (Z.ltb_spec (PAGE_SHIFT W - 10) 0); [reflexivity | lia].
Qed.

(** X1.  When the page shift is at least 10, [K] returns an object of
    the type of its argument whose value is the argument times
    [2 ^ (PAGE_SHIFT - 10)] reduced to the 64 bits of that type, hence
    that product itself whenever it lies in the range of the type.  When
    the page shift is smaller, [K] raises [ValueError] for every
    argument. *)
Theorem K_exact_or_ValueError W x :
  (10 <= PAGE_SHIFT W ->
   exists r,
     K W x = Ret r
     /\ type_ r = type_ x
     /\ value_ r = truncate (type_ x) (value_ x * 2 ^ (PAGE_SHIFT W - 10))
     /\ (type_ x = s64 ->
         - 2 ^ 63 <= value_ x * 2 ^ (PAGE_SHIFT W - 10) < 2 ^ 63 ->
         value_ r = value_ x * 2 ^ (PAGE_SHIFT W - 10))
     /\ (type_ x = unsigned_long ->
         0 <= value_ x * 2 ^ (PAGE_SHIFT W - 10) < 2 ^ 64 ->
         value_ r = value_ x * 2 ^ (PAGE_SHIFT W - 10)))
  /\ (PAGE_SHIFT W < 10 -> K W x = Raise ValueError).
Proof.
  split; [|apply K_small_pages]. intros Hs. unfold K.
  destruct (Z.ltb_spec (PAGE_SHIFT W - 10) 0); [lia|].
  rewrite Z.shiftl_mul_pow2 by assumption.
  eexists. split; [reflexivity|]. simpl. split; [reflexivity|]. split; [reflexivity|].
  split; intros ->; [apply truncate_s64_fits | apply truncate_unsigned_fits].
Qed.

(** A queue does not overflow in conversion when its counts and its
    bandwidth, shifted, still fit their 64-bit types. *)
Lemma queue_counter_fits W wb i :
  10 <= PAGE_SHIFT W ->
  raw_count wb i < 2 ^ (73 - PAGE_SHIFT W) ->
  queue_counter W wb i = Z.max 0 (raw_count wb i) * 2 ^ (PAGE_SHIFT W - 10).
Proof.
  intros Hs Hfit. unfold queue_counter, kilobytes.
  destruct (Z.ltb_spec (raw_count wb i) 0).
  - rewrite Z.max_l by lia. reflexivity.
  - rewrite Z.max_r by lia. rewrite <- Z.shiftl_mul_pow2 by lia.
    apply truncate_s64_fits.
    pose proof (shiftl_below 63 (PAGE_SHIFT W - 10) (raw_count wb i)) as Hb.
    replace (63 - (PAGE_SHIFT W - 10)) with (73 - PAGE_SHIFT W) in Hb by lia.
    specialize (Hb ltac:(lia) ltac:(lia)). lia.
Qed.

Lemma queue_bandwidth_fits W wb :
  10 <= PAGE_SHIFT W ->
  raw_bandwidth wb < 2 ^ (74 - PAGE_SHIFT W) ->
  queue_bandwidth W wb = raw_bandwidth wb * 2 ^ (PAGE_SHIFT W - 10).
Proof.
  intros Hs Hfit. unfold queue_bandwidth, kilobytes.
  rewrite <- Z.shiftl_mul_pow2 by lia. apply truncate_unsigned_fits.
  pose proof (truncate_unsigned_range (avg_write_bandwidth wb)) as Hr.
  fold (raw_bandwidth wb) in Hr.
  pose proof (shiftl_below 64 (PAGE_SHIFT W - 10) (raw_bandwidth wb)) as Hb.
  replace (64 - (PAGE_SHIFT W - 10)) with (74 - PAGE_SHIFT W) in Hb by lia.
  apply Hb; lia.
Qed.

Lemma total_scaled {A} (f : A -> Z) (k : Z) (l : list A) :
  total (map (fun a => f a * k) l) = total (map f l) * k.
Proof. induction l as [|a l IH]; simpl; [reflexivity | rewrite IH; lia]. Qed.

Lemma device_counter_once W bdi i :
  10 <= PAGE_SHIFT W ->
  (forall wb, In wb (wb_list bdi) -> raw_count wb i < 2 ^ (73 - PAGE_SHIFT W)) ->
  device_counter W bdi i
  = total (map (fun wb => Z.max 0 (raw_count wb i)) (wb_list bdi)) * 2 ^ (PAGE_SHIFT W - 10).
Proof.
  intros Hs Hfit. unfold device_counter. rewrite <- total_scaled. f_equal.
  apply map_ext_in. intros wb Hin. apply queue_counter_fits; [exact Hs | apply Hfit, Hin].
Qed.

Lemma device_bandwidth_once W bdi :
  10 <= PAGE_SHIFT W ->
  (forall wb, In wb (wb_list bdi) -> raw_bandwidth wb < 2 ^ (74 - PAGE_SHIFT W)) ->
  device_bandwidth W bdi
  = total (map raw_bandwidth (wb_list bdi)) * 2 ^ (PAGE_SHIFT W - 10).
Proof.
  intros Hs Hfit. unfold device_bandwidth. rewrite <- total_scaled. f_equal.
  apply map_ext_in. intros wb Hin. apply queue_bandwidth_fits; [exact Hs | apply Hfit, Hin].
Qed.

(** X2.  As long as no queue overflows in conversion (every count read is
    below [2 ^ (73 - PAGE_SHIFT)] and every bandwidth below
    [2 ^ (74 - PAGE_SHIFT)]), converting every queue and adding up gives
    what adding up the pages and converting once gives: the record
    printed for an accepted device carries, for each counter, the sum of
    the non-negative counts read from its queues times
    [2 ^ (PAGE_SHIFT - 10)], and the sum of the bandwidths read times the
    same factor. *)
Theorem device_record_converts_the_sum {RE : RegexEngine} W args filter_re bdi s table_fmt now :
  passes filter_re (dev_name bdi) = true ->
  10 <= PAGE_SHIFT W ->
  (forall wb i, In wb (wb_list bdi) -> (i < NR_WB_STAT_ITEMS)%nat ->
                raw_count wb i < 2 ^ (73 - PAGE_SHIFT W)) ->
  (forall wb, In wb (wb_list bdi) -> raw_bandwidth wb < 2 ^ (74 - PAGE_SHIFT W)) ->
  Stats_table_fmt s = Some table_fmt ->
  Stats_now s = Some now ->
  exists s',
    main_bdi W args filter_re bdi s = (s', Ret tt)
    /\ trace s' =
         (trace s
          ++ (if cgroup args then map (shown_queue W table_fmt now) (wb_list bdi) else [])
          ++ [shown table_fmt now (dev_name bdi)
                (map (fun i => total (map (fun wb => Z.max 0 (raw_count wb i)) (wb_list bdi))
                               * 2 ^ (PAGE_SHIFT W - 10))
                     (range NR_WB_STAT_ITEMS))
                (total (map raw_bandwidth (wb_list bdi)) * 2 ^ (PAGE_SHIFT W - 10))]
          ++ (if cgroup args && table_fmt then [Stdout ""] else []))%list.
Proof.
  intros Hacc Hs Hfit Hfitbw Hfmt Hnow.
  destruct (main_bdi_run W args filter_re bdi s table_fmt now Hacc Hs Hfmt Hnow)
    as (s' & Hrun & Htr & _).
  exists s'. split; [exact Hrun|]. rewrite Htr.
  unfold device_events, shown_device, device_counters.
  rewrite <- (device_bandwidth_once W bdi Hs Hfitbw).
  rewrite (map_ext_in (device_counter W bdi)
             (fun i => total (map (fun wb => Z.max 0 (raw_count wb i)) (wb_list bdi))
                       * 2 ^ (PAGE_SHIFT W - 10))); [reflexivity|].
  intros i Hi. apply in_seq in Hi. apply device_counter_once; [exact Hs|].
  intros wb Hin. apply Hfit; [exact Hin | lia].
Qed.

Lemma device_record_converts_the_sum_witness :
  exists s',
    main_bdi (RE := MiniRe.engine) (Demo.world Demo.never Demo.never)
      (Demo.args [] 0%float false false) None Demo.sda (Cases.in_pass false) = (s', Ret tt)
    /\ trace s' =
         (trace (Cases.in_pass false)
          ++ (if cgroup (Demo.args [] 0%float false false)
              then map (shown_queue (Demo.world Demo.never Demo.never) true 0%float)
                     (wb_list Demo.sda)
              else [])
          ++ [shown true 0%float (dev_name Demo.sda)
                (map (fun i => total (map (fun wb => Z.max 0 (raw_count wb i)) (wb_list Demo.sda))
                               * 2 ^ (PAGE_SHIFT (Demo.world Demo.never Demo.never) - 10))
                     (range NR_WB_STAT_ITEMS))
                (total (map raw_bandwidth (wb_list Demo.sda))
                 * 2 ^ (PAGE_SHIFT (Demo.world Demo.never Demo.never) - 10))]
          ++ (if cgroup (Demo.args [] 0%float false false) && true then [Stdout ""] else []))%list.
Proof.
  apply (device_record_converts_the_sum (RE := MiniRe.engine)
           (Demo.world Demo.never Demo.never) (Demo.args [] 0%float false false) None
           Demo.sda (Cases.in_pass false) true 0%float).
  - reflexivity.
  - simpl. lia.
  - intros wb i [<- | []] Hi. unfold NR_WB_STAT_ITEMS in Hi.
    destruct i as [|[|[|[|i]]]]; [reflexivity | reflexivity | reflexivity | reflexivity | lia].
  - intros wb [<- | []]. reflexivity.
  - reflexivity.
  - reflexivity.
Defined.

(** ** Totals *)

Lemma total_nonneg (l : list Z) : Forall (fun z => 0 <= z) l -> 0 <= total l.
Proof. induction 1 as [|z l Hz _ IH]; simpl; lia. Qed.

Lemma total_ge_member (l : list Z) z :
  Forall (fun z => 0 <= z) l -> In z l -> z <= total l.
Proof.
  induction 1 as [|y l Hy Hl IH]; simpl; intros Hin; [contradiction|].
  pose proof (total_nonneg l Hl). destruct Hin as [->|Hin]; [lia|].
  specialize (IH Hin). lia.
Qed.

Lemma queue_counter_fits_nonneg W wb i :
  10 <= PAGE_SHIFT W ->
  raw_count wb i < 2 ^ (73 - PAGE_SHIFT W) ->
  0 <= queue_counter W wb i.
Proof.
  intros Hs Hfit. rewrite queue_counter_fits by assumption.
  pose proof (Z.pow_pos_nonneg 2 (PAGE_SHIFT W - 10) eq_refl ltac:(lia)). nia.
Qed.

(** X3.  As long as no count of its queues overflows in conversion (every
    count read is below [2 ^ (73 - PAGE_SHIFT)]), no counter of a device
    record is below the same counter of one of its queues, and no queue
    counter is negative: the record printed for an accepted device has
    four counters, each at least as large as what each queue on the
    device's list contributes. *)
Theorem device_counters_dominate {RE : RegexEngine} W args filter_re bdi s table_fmt now :
  passes filter_re (dev_name bdi) = true ->
  10 <= PAGE_SHIFT W ->
  (forall wb i, In wb (wb_list bdi) -> (i < NR_WB_STAT_ITEMS)%nat ->
                raw_count wb i < 2 ^ (73 - PAGE_SHIFT W)) ->
  Stats_table_fmt s = Some table_fmt ->
  Stats_now s = Some now ->
  exists s' counters bw,
    main_bdi W args filter_re bdi s = (s', Ret tt)
    /\ trace s' =
         (trace s
          ++ (if cgroup args then map (shown_queue W table_fmt now) (wb_list bdi) else [])
          ++ [shown table_fmt now (dev_name bdi) counters bw]
          ++ (if cgroup args && table_fmt then [Stdout ""] else []))%list
    /\ length counters = NR_WB_STAT_ITEMS
    /\ forall i wb,
         (i < NR_WB_STAT_ITEMS)%nat ->
         In wb (wb_list bdi) ->
         0 <= queue_counter W wb i <= nth i counters 0.
Proof.
  intros Hacc Hs Hfit Hfmt Hnow.
  destruct (main_bdi_run W args filter_re bdi s table_fmt now Hacc Hs Hfmt Hnow)
    as (s' & Hrun & Htr & _).
  exists s', (device_counters W bdi), (device_bandwidth W bdi).
  split; [exact Hrun|]. split; [exact Htr|]. split; [reflexivity|].
  intros i wb Hi Hin. split; [apply queue_counter_fits_nonneg; [exact Hs | apply Hfit; assumption]|].
  assert (nth i (device_counters W bdi) 0 = device_counter W bdi i) as ->.
  { unfold NR_WB_STAT_ITEMS in Hi. unfold device_counters, range, NR_WB_STAT_ITEMS.
    destruct i as [|[|[|[|i]]]]; try reflexivity. lia. }
  unfold device_counter. apply total_ge_member.
  - apply Forall_forall. intros z Hz.
    apply list_elem_of_In, in_map_iff in Hz as (wb' & <- & Hin').
    apply queue_counter_fits_nonneg; [exact Hs | apply Hfit; assumption].
  - apply in_map_iff. exists wb. split; [reflexivity | exact Hin].
Qed.

Lemma device_counters_dominate_witness :
  exists s' counters bw,
    main_bdi (RE := MiniRe.engine) (Demo.world Demo.never Demo.never)
      (Demo.args [] 0%float false true) None Demo.bdi0 (Cases.in_pass false) = (s', Ret tt)
    /\ trace s' =
         (trace (Cases.in_pass false)
          ++ (if cgroup (Demo.args [] 0%float false true)
              then map (shown_queue (Demo.world Demo.never Demo.never) true 0%float)
                     (wb_list Demo.bdi0)
              else [])
          ++ [shown true 0%float (dev_name Demo.bdi0) counters bw]
          ++ (if cgroup (Demo.args [] 0%float false true) && true then [Stdout ""] else []))%list
    /\ length counters = NR_WB_STAT_ITEMS
    /\ forall i wb,
         (i < NR_WB_STAT_ITEMS)%nat ->
         In wb (wb_list Demo.bdi0) ->
         0 <= queue_counter (Demo.world Demo.never Demo.never) wb i <= nth i counters 0.
Proof.
  apply (device_counters_dominate (RE := MiniRe.engine)
           (Demo.world Demo.never Demo.never) (Demo.args [] 0%float false true) None
           Demo.bdi0 (Cases.in_pass false) true 0%float).
  - reflexivity.
  - simpl. lia.
  - intros wb i [<- | [<- | []]] Hi; unfold NR_WB_STAT_ITEMS in Hi;
      (destruct i as [|[|[|[|i]]]];
       [reflexivity | reflexivity | reflexivity | reflexivity | lia]).
  - reflexivity.
  - reflexivity.
Defined.

(** X4.  An accepted device without queues is not skipped: its record is
    printed with four zero counters and zero bandwidth, whatever the page
    shift is, because [K] is never called for it. *)
Theorem device_without_queues {RE : RegexEngine} W args filter_re bdi s table_fmt now :
  wb_list bdi = [] ->
  passes filter_re (dev_name bdi) = true ->
  Stats_table_fmt s = Some table_fmt ->
  Stats_now s = Some now ->
  exists s',
    main_bdi W args filter_re bdi s = (s', Ret tt)
    /\ trace s' =
         (trace s ++ shown table_fmt now (dev_name bdi) [0; 0; 0; 0] 0
                     :: (if cgroup args && table_fmt then [Stdout ""] else []))%list.
Proof.
  intros Hnil Hacc Hfmt Hnow. destruct bdi as [d wbs]. simpl in Hnil, Hacc. subst wbs.
  destruct (BdiStats_run {| dev_name := d; wb_list := [] |} s)
    as (bdi_stats & l & Hrun & Hl & Hself & Hne).
  unfold main_bdi.
  erewrite (bind_Ret (BdiStats _)) by exact Hrun.
  erewrite (bind_Ret (get_stats _)) by (apply get_stats_run; simpl; apply lookup_insert_eq).
  cbn [name dev_name wb_list for_each]. rewrite Hacc. cbn [negb].
  erewrite (bind_Ret (ret tt)) by reflexivity.
  erewrite bind_Ret; cycle 1.
  { eapply (show_stats_run _ bdi_stats _ [0; 0; 0; 0] table_fmt now);
      [exact Hfmt | exact Hnow | simpl; apply lookup_insert_eq | | reflexivity].
    simpl. rewrite lookup_insert_ne by congruence. apply lookup_insert_eq. }
  cbn [name avg_bw].
  destruct (cgroup args).
  - erewrite bind_Ret by (apply get_table_fmt_run; exact Hfmt).
    destruct table_fmt; eexists; (split; [reflexivity|]); simpl;
      rewrite <- ?app_assoc; reflexivity.
  - eexists. split; reflexivity.
Qed.

Lemma device_without_queues_witness :
  exists s',
    main_bdi (RE := MiniRe.engine) Cases.small_pages (Demo.args [] 0%float false true) None
      Cases.idle (Cases.in_pass false) = (s', Ret tt)
    /\ trace s' =
         (trace (Cases.in_pass false)
          ++ shown true 0%float (dev_name Cases.idle) [0; 0; 0; 0] 0
             :: (if cgroup (Demo.args [] 0%float false true) && true
                 then [Stdout ""] else []))%list.
Proof.
  apply (device_without_queues (RE := MiniRe.engine) Cases.small_pages
           (Demo.args [] 0%float false true) None Cases.idle (Cases.in_pass false)
           true 0%float).
  - reflexivity.
  - reflexivity.
  - reflexivity.
  - reflexivity.
Defined.

(** ** A page shift below 10 *)

Lemma comprehension_Ret_or_Raise {A B} (f : A -> outcome B) (b : B) (e : exn) (l : list A) :
  (forall a, f a = Ret b \/ f a = Raise e) ->
  (exists items, comprehension f l = Ret items) \/ comprehension f l = Raise e.
Proof.
  intros Hf. induction l as [|a l IH]; cbn [comprehension].
  - left. eexists. reflexivity.
  - destruct (Hf a) as [-> | ->]; [|right; reflexivity].
    destruct IH as [[items ->] | ->]; [left; eexists; reflexivity | right; reflexivity].
Qed.

Lemma comprehension_small_pages W wb l :
  PAGE_SHIFT W < 10 ->
  (exists items,
     comprehension (fun i => if value_ (Object_at s64 (stat wb i)) >=? 0
                             then int (K W (Object_at s64 (stat wb i))) else Ret 0) l
     = Ret items)
  \/ comprehension (fun i => if value_ (Object_at s64 (stat wb i)) >=? 0
                             then int (K W (Object_at s64 (stat wb i))) else Ret 0) l
     = Raise ValueError.
Proof.
  intros Hs. apply (comprehension_Ret_or_Raise _ 0 ValueError). intros i.
  destruct (value_ _ >=? 0); [right | left; reflexivity].
  rewrite (K_small_pages W _ Hs). reflexivity.
Qed.

(** Sampling a queue then raises [ValueError], at the first counter that
    is not negative or else at the bandwidth. *)
Lemma WbStats_small_pages W wb s :
  PAGE_SHIFT W < 10 ->
  exists s', WbStats W wb s = (s', Raise ValueError) /\ trace s' = trace s.
Proof.
  intros Hs. unfold WbStats.
  destruct (comprehension_small_pages W wb (range NR_WB_STAT_ITEMS) Hs) as [[items Hc] | Hc];
    rewrite Hc.
  - erewrite (bind_Ret (lift _)) by reflexivity.
    erewrite (bind_Ret (alloc _)) by reflexivity.
    erewrite bind_Raise; cycle 1.
    { unfold lift. rewrite (K_small_pages W _ Hs). reflexivity. }
    eexists. split; reflexivity.
  - erewrite bind_Raise by reflexivity. eexists. split; reflexivity.
Qed.

(** X5.  With a page shift below 10 an accepted device that has a queue
    cannot be reported: the pass over it raises [ValueError] at its first
    queue and prints nothing for the device. *)
Theorem small_pages_raise {RE : RegexEngine} W args filter_re bdi s :
  PAGE_SHIFT W < 10 ->
  wb_list bdi <> [] ->
  passes filter_re (dev_name bdi) = true ->
  exists s',
    main_bdi W args filter_re bdi s = (s', Raise ValueError)
    /\ trace s' = trace s.
Proof.
  intros Hs Hne Hacc. destruct bdi as [d [|wb wbs]]; [exfalso; apply Hne; reflexivity|].
  simpl in Hacc.
  destruct (BdiStats_run {| dev_name := d; wb_list := wb :: wbs |} s)
    as (bdi_stats & l & Hrun & _).
  destruct (WbStats_small_pages W wb
              (with_heap (<[bdi_stats := CStats {| name := d; stats := l; avg_bw := 0 |}]>
                            (<[l := CList [0; 0; 0; 0]]> (heap s))) s) Hs)
    as (s' & Hwb & Htr).
  exists s'. split; [|exact Htr].
  unfold main_bdi.
  erewrite (bind_Ret (BdiStats _)) by exact Hrun.
  erewrite (bind_Ret (get_stats _)) by (apply get_stats_run; simpl; apply lookup_insert_eq).
  cbn [name dev_name wb_list for_each]. rewrite Hacc. cbn [negb].
  erewrite bind_Raise; [reflexivity|].
  erewrite bind_Raise; [reflexivity|].
  unfold main_wb. erewrite bind_Raise; [reflexivity | exact Hwb].
Qed.

Lemma small_pages_raise_witness :
  exists s',
    main_bdi (RE := MiniRe.engine) Cases.small_pages (Demo.args [] 0%float false false) None
      Demo.bdi0 (Cases.in_pass false) = (s', Raise ValueError)
    /\ trace s' = trace (Cases.in_pass false).
Proof.
  apply (small_pages_raise (RE := MiniRe.engine) Cases.small_pages
           (Demo.args [] 0%float false false) None Demo.bdi0 (Cases.in_pass false)).
  - simpl. lia.
  - discriminate.
  - reflexivity.
Defined.

(** ** Passes that report no device *)

Lemma main_bdi_loop_skipped {RE : RegexEngine} W args filter_re bdis : forall s,
  (forall bdi, In bdi bdis -> passes filter_re (dev_name bdi) = false) ->
  exists s',
    for_each bdis (main_bdi W args filter_re) s = (s', Ret tt)
    /\ trace s' = trace s.
Proof.
  induction bdis as [|bdi bdis IH]; intros s Hrej.
  - exists s. split; reflexivity.
  - destruct (main_bdi_skipped W args filter_re bdi s (Hrej bdi (or_introl eq_refl)))
      as (h & _ & Hrun).
    destruct (IH (with_heap h s) (fun b Hb => Hrej b (or_intror Hb))) as (s' & Hrun' & Htr).
    exists s'. simpl for_each. erewrite bind_Ret by exact Hrun.
    split; [exact Hrun' | exact Htr].
Qed.

(** X6.  A pass in which the filter rejects every device, or that finds no
    device at all, still prints the blank line and the header in table
    mode, prints nothing in the structured mode, and returns; the page
    shift plays no part. *)
Theorem pass_without_match {RE : RegexEngine} W args filter_re n s :
  Stats_table_fmt s = Some (negb (json args)) ->
  (forall bdi, In bdi (bdi_list W n) -> passes filter_re (dev_name bdi) = false) ->
  exists s',
    main_pass W args filter_re n s = (s', Ret tt)
    /\ trace s' =
         (trace s ++ (if json args then [] else [Stdout ""; Stdout table_header_str]))%list.
Proof.
  intros Hfmt Hrej. unfold main_pass.
  erewrite bind_Ret by reflexivity.
  set (s1 := {| heap := heap s; trace := trace s; Stats_table_fmt := Stats_table_fmt s;
                Stats_now := Some (time_time W n); exit_req := exit_req s |}).
  assert (exists s2, show_header s1 = (s2, Ret tt)
                     /\ trace s2 = (trace s ++ (if json args then []
                                                else [Stdout ""; Stdout table_header_str]))%list)
    as (s2 & Hhdr & Htr2).
  { unfold show_header. erewrite bind_Ret by (apply get_table_fmt_run; exact Hfmt).
    destruct (json args); simpl negb; cbv iota.
    - exists s1. rewrite app_nil_r. split; reflexivity.
    - eexists. split; [reflexivity|]. simpl. rewrite <- app_assoc. reflexivity. }
  erewrite bind_Ret by exact Hhdr.
  destruct (main_bdi_loop_skipped W args filter_re (bdi_list W n) s2 Hrej) as (s' & Hrun & Htr).
  exists s'. split; [exact Hrun | congruence].
Qed.

Lemma pass_without_match_witness :
  exists s',
    main_pass (RE := MiniRe.engine) Cases.small_pages (Demo.args ["^nvme"] 0%float false true)
      (re_compile (RegexEngine := MiniRe.engine) "^nvme") 0 (entered false) = (s', Ret tt)
    /\ trace s' =
         (trace (entered false)
          ++ (if json (Demo.args ["^nvme"] 0%float false true) then []
              else [Stdout ""; Stdout table_header_str]))%list.
Proof.
  apply (pass_without_match (RE := MiniRe.engine) Cases.small_pages
           (Demo.args ["^nvme"] 0%float false true)
           (re_compile (RegexEngine := MiniRe.engine) "^nvme") 0 (entered false)).
  - reflexivity.
  - intros bdi [<- | [<- | []]]; reflexivity.
Defined.

(** ** Ends of a run *)

(** X7.  When SIGINT arrives after the handler is installed and before the
    loop condition is first evaluated, [main] returns without a single
    pass and without output, whatever the interval is, zero included. *)
Theorem stop_before_first_pass {RE : RegexEngine} W args filter_re fuel :
  compile_filter args initial = (initial, Ret filter_re) ->
  sigint_before W 0 = true ->
  exists s',
    main W args (S fuel) initial = (s', Ret tt)
    /\ trace s' = []
    /\ exit_req s' = true.
Proof.
  intros Hc Hsig. rewrite (main_enters_loop W args filter_re (S fuel) Hc).
  destruct (main_loop_stops W args filter_re fuel 0 (entered (json args)))
    as (s' & Hrun & Htr & He); [rewrite Hsig; apply orb_true_r|].
  exists s'. split; [exact Hrun|]. split; [exact Htr | exact He].
Qed.

Lemma stop_before_first_pass_witness :
  exists s',
    main (RE := MiniRe.engine) (Demo.world (Demo.in_pass 0) Demo.never)
      (Demo.args [] 0%float false false) 1 initial = (s', Ret tt)
    /\ trace s' = []
    /\ exit_req s' = true.
Proof.
  apply (stop_before_first_pass (RE := MiniRe.engine) (Demo.world (Demo.in_pass 0) Demo.never)
           (Demo.args [] 0%float false false) None 0).
  - reflexivity.
  - reflexivity.
Defined.

Lemma main_loop_runs_on {RE : RegexEngine} W args filter_re fuel : forall n s,
  PrimFloat.eqb (interval args) 0%float = false ->
  time_sleep W (interval args) = None ->
  10 <= PAGE_SHIFT W ->
  Stats_table_fmt s = Some (negb (json args)) ->
  exit_req s = false ->
  (forall m, sigint_before W m = false) ->
  (forall m, sigint_during W m = false) ->
  exists s',
    main_loop W args filter_re fuel n s = (s', Fuel)
    /\ trace s' =
         (trace s ++ flat_map (fun m => pass_events W args filter_re m ++ [Sleep (interval args)])
                      (seq n fuel))%list.
Proof.
  induction fuel as [|fuel IH]; intros n s Hnz Hsl Hs Hfmt Hreq Hb Hd.
  - exists s. simpl. rewrite app_nil_r. split; reflexivity.
  - destruct (main_loop_pass W args filter_re fuel n s Hreq (Hb n) Hfmt Hs)
      as (s1 & Htr1 & He1 & Hf1 & _ & Hl).
    rewrite Hnz, Hsl in Hl.
    destruct (IH (S n) (with_trace (trace s1 ++ [Sleep (interval args)]) s1) Hnz Hsl Hs)
      as (s' & Hl' & Htr'); try assumption.
    + simpl. congruence.
    + simpl. rewrite He1. apply Hd.
    + exists s'. split; [congruence|].
      rewrite Htr'. simpl. rewrite Htr1, <- !app_assoc. reflexivity.
Qed.

(** X8.  With an interval other than zero the loop has no end of its own:
    as long as no SIGINT arrives, whatever number of passes the run is
    allowed, it makes them all, each followed by its sleep, and is not
    finished. *)
Theorem no_end_without_SIGINT {RE : RegexEngine} W args filter_re fuel :
  PrimFloat.eqb (interval args) 0%float = false ->
  time_sleep W (interval args) = None ->
  compile_filter args initial = (initial, Ret filter_re) ->
  10 <= PAGE_SHIFT W ->
  (forall m, sigint_before W m = false) ->
  (forall m, sigint_during W m = false) ->
  exists s',
    main W args fuel initial = (s', Fuel)
    /\ trace s' =
         flat_map (fun m => pass_events W args filter_re m ++ [Sleep (interval args)])%list
           (seq 0 fuel).
Proof.
  intros Hnz Hsl Hc Hs Hb Hd. rewrite (main_enters_loop W args filter_re fuel Hc).
  destruct (main_loop_runs_on W args filter_re fuel 0 (entered (json args)) Hnz Hsl Hs)
    as (s' & Hrun & Htr); try assumption; try reflexivity.
  exists s'. split; [exact Hrun | exact Htr].
Qed.

Lemma no_end_without_SIGINT_witness :
  exists s',
    main (RE := MiniRe.engine) (Demo.world Demo.never Demo.never)
      (Demo.args [] 1%float true false) 3 initial = (s', Fuel)
    /\ trace s' =
         flat_map (fun m => pass_events (RE := MiniRe.engine)
                              (Demo.world Demo.never Demo.never)
                              (Demo.args [] 1%float true false) None m
                            ++ [Sleep (interval (Demo.args [] 1%float true false))])%list
           (seq 0 3).
Proof.
  apply (no_end_without_SIGINT (RE := MiniRe.engine) (Demo.world Demo.never Demo.never)
           (Demo.args [] 1%float true false) None 3).
  - reflexivity.
  - reflexivity.
  - reflexivity.
  - simpl. lia.
  - reflexivity.
  - reflexivity.
Defined.

(** X9.  When [time.sleep] refuses the interval, the first pass is still
    made and printed in full; the exception of [time.sleep] then ends the
    run. *)
Theorem sleep_error_after_first_pass {RE : RegexEngine} W args filter_re fuel e :
  PrimFloat.eqb (interval args) 0%float = false ->
  time_sleep W (interval args) = Some e ->
  compile_filter args initial = (initial, Ret filter_re) ->
  sigint_before W 0 = false ->
  10 <= PAGE_SHIFT W ->
  exists s',
    main W args (S fuel) initial = (s', Raise e)
    /\ trace s' = (pass_events W args filter_re 0 ++ [Sleep (interval args)])%list.
Proof.
  intros Hnz Hsl Hc Hbefore Hs. rewrite (main_enters_loop W args filter_re (S fuel) Hc).
  destruct (main_loop_pass W args filter_re fuel 0 (entered (json args)))
    as (s1 & Htr & _ & _ & _ & Hrun); [reflexivity | exact Hbefore | reflexivity | exact Hs |].
  rewrite Hnz, Hsl in Hrun.
  eexists. split; [exact Hrun|]. simpl. rewrite Htr. reflexivity.
Qed.

Lemma sleep_error_after_first_pass_witness :
  exists s',
    main (RE := MiniRe.engine) (Demo.world Demo.never Demo.never)
      (Demo.args [] (-1)%float false false) 1 initial = (s', Raise ValueError)
    /\ trace s' =
         (pass_events (RE := MiniRe.engine) (Demo.world Demo.never Demo.never)
            (Demo.args [] (-1)%float false false) None 0
          ++ [Sleep (interval (Demo.args [] (-1)%float false false))])%list.
Proof.
  apply (sleep_error_after_first_pass (RE := MiniRe.engine) (Demo.world Demo.never Demo.never)
           (Demo.args [] (-1)%float false false) None 0 ValueError).
  - reflexivity.
  - reflexivity.
  - reflexivity.
  - reflexivity.
  - simpl. lia.
Defined.

(** ** The records of a pass *)

Lemma length_flat_map_sum {A B} (f : A -> list B) (l : list A) :
  length (flat_map f l) = list_sum (map (fun a => length (f a)) l).
Proof.
  induction l as [|a l IH]; simpl; [reflexivity|].
  rewrite length_app, IH. reflexivity.
Qed.

Lemma shown_dict now name counters bw :
  exists rest,
    shown false now name counters bw = StdoutDict (("timestamp", VFloat now) :: rest)
    /\ map fst (("timestamp", VFloat now) :: rest) = dict_keys.
Proof. eexists. split; reflexivity. Qed.

Lemma shown_line now name counters bw :
  exists line, shown true now name counters bw = Stdout line.
Proof. eexists. reflexivity. Qed.

(** X10.  In the structured mode a pass prints dictionaries only, no
    header and no blank line: one per accepted device, and one more per
    queue under [--cgroup].  Each has the seven keys timestamp, name,
    writeback, reclaimable, dirtied, written, avg_wb in this order, and
    all carry the one time stamp taken at the start of the pass. *)
Theorem structured_pass_records {RE : RegexEngine} W args filter_re n s :
  json args = true ->
  10 <= PAGE_SHIFT W ->
  Stats_table_fmt s = Some false ->
  exists s' records,
    main_pass W args filter_re n s = (s', Ret tt)
    /\ trace s' = (trace s ++ records)%list
    /\ length records = record_count (cgroup args) filter_re (bdi_list W n)
    /\ forall e, In e records ->
         exists rest,
           e = StdoutDict (("timestamp", VFloat (time_time W n)) :: rest)
           /\ map fst (("timestamp", VFloat (time_time W n)) :: rest) = dict_keys.
Proof.
  intros Hj Hs Hfmt.
  destruct (main_pass_run W args filter_re n s Hs) as (s' & Hrun & Htr & _);
    [rewrite Hj; exact Hfmt|].
  exists s', (pass_events W args filter_re n).
  split; [exact Hrun|]. split; [exact Htr|].
  unfold pass_events, record_count. rewrite Hj. cbn [negb app]. split.
  - rewrite length_flat_map_sum. f_equal. apply map_ext. intros bdi.
    destruct (passes filter_re (dev_name bdi)); [|reflexivity].
    unfold device_events. rewrite andb_false_r.
    destruct (cgroup args); rewrite !length_app; simpl; [rewrite length_map|]; lia.
  - intros e Hin. apply in_flat_map in Hin as (bdi & _ & Hin).
    destruct (passes filter_re (dev_name bdi)); [|contradiction].
    unfold device_events in Hin. rewrite andb_false_r in Hin.
    apply in_app_or in Hin as [Hin|Hin]; [|apply in_app_or in Hin as [[<-|[]]|[]]].
    + destruct (cgroup args); [|contradiction].
      apply in_map_iff in Hin as (wb & <- & _). apply shown_dict.
    + apply shown_dict.
Qed.

Lemma structured_pass_records_witness :
  exists s' records,
    main_pass (RE := MiniRe.engine) (Demo.world Demo.never Demo.never)
      (Demo.args [] 1%float true true) None 4 (entered true) = (s', Ret tt)
    /\ trace s' = (trace (entered true) ++ records)%list
    /\ length records
       = record_count (RE := MiniRe.engine) (cgroup (Demo.args [] 1%float true true)) None
           (bdi_list (Demo.world Demo.never Demo.never) 4)
    /\ forall e, In e records ->
         exists rest,
           e = StdoutDict (("timestamp",
                            VFloat (time_time (Demo.world Demo.never Demo.never) 4)) :: rest)
           /\ map fst (("timestamp", VFloat (time_time (Demo.world Demo.never Demo.never) 4))
                       :: rest) = dict_keys.
Proof.
  apply (structured_pass_records (RE := MiniRe.engine) (Demo.world Demo.never Demo.never)
           (Demo.args [] 1%float true true) None 4 (entered true)).
  - reflexivity.
  - simpl. lia.
  - reflexivity.
Defined.

Lemma length_table_lines {RE : RegexEngine} W cg filter_re now bdis :
  length (flat_map (fun bdi => if passes filter_re (dev_name bdi)
                               then device_events W cg true now bdi else []) bdis)
  = (record_count cg filter_re bdis + (if cg then record_count false filter_re bdis else 0))%nat.
Proof.
  unfold record_count. rewrite length_flat_map_sum.
  induction bdis as [|bdi bdis IH]; simpl; [destruct cg; reflexivity|].
  rewrite IH. unfold device_events.
  destruct (passes filter_re (dev_name bdi)), cg; simpl;
    rewrite ?length_app, ?length_map; simpl; lia.
Qed.

(** X11.  In table mode a pass prints lines only: a blank line, the
    header, then one row per accepted device, preceded under [--cgroup] by
    one row per queue and followed by a blank line. *)
Theorem table_pass_lines {RE : RegexEngine} W args filter_re n s :
  json args = false ->
  10 <= PAGE_SHIFT W ->
  Stats_table_fmt s = Some true ->
  exists s' lines,
    main_pass W args filter_re n s = (s', Ret tt)
    /\ trace s' = (trace s ++ Stdout "" :: Stdout table_header_str :: lines)%list
    /\ length lines
       = (record_count (cgroup args) filter_re (bdi_list W n)
          + (if cgroup args then record_count false filter_re (bdi_list W n) else 0))%nat
    /\ forall e, In e lines -> exists line, e = Stdout line.
Proof.
  intros Hj Hs Hfmt.
  destruct (main_pass_run W args filter_re n s Hs) as (s' & Hrun & Htr & _);
    [rewrite Hj; exact Hfmt|].
  unfold pass_events in Htr. rewrite Hj in Htr. cbn [negb app] in Htr.
  eexists s', _. split; [exact Hrun|]. split; [exact Htr|]. split.
  - apply length_table_lines.
  - intros e Hin. apply in_flat_map in Hin as (bdi & _ & Hin).
    destruct (passes filter_re (dev_name bdi)); [|contradiction].
    unfold device_events in Hin.
    apply in_app_or in Hin as [Hin|Hin]; [|apply in_app_or in Hin as [[<-|[]]|Hin]].
    + destruct (cgroup args); [|contradiction].
      apply in_map_iff in Hin as (wb & <- & _). apply shown_line.
    + apply shown_line.
    + destruct (cgroup args && true); [|contradiction].
      destruct Hin as [<-|[]]. eexists. reflexivity.
Qed.

Lemma table_pass_lines_witness :
  exists s' lines,
    main_pass (RE := MiniRe.engine) (Demo.world Demo.never Demo.never)
      (Demo.args ["^bdi"] 1%float false true)
      (re_compile (RegexEngine := MiniRe.engine) "^bdi") 0 (entered false) = (s', Ret tt)
    /\ trace s' = (trace (entered false) ++ Stdout "" :: Stdout table_header_str :: lines)%list
    /\ length lines
       = (record_count (RE := MiniRe.engine) (cgroup (Demo.args ["^bdi"] 1%float false true))
            (re_compile (RegexEngine := MiniRe.engine) "^bdi")
            (bdi_list (Demo.world Demo.never Demo.never) 0)
          + (if cgroup (Demo.args ["^bdi"] 1%float false true)
             then record_count (RE := MiniRe.engine) false
                    (re_compile (RegexEngine := MiniRe.engine) "^bdi")
                    (bdi_list (Demo.world Demo.never Demo.never) 0)
             else 0))%nat
    /\ forall e, In e lines -> exists line, e = Stdout line.
Proof.
  apply (table_pass_lines (RE := MiniRe.engine) (Demo.world Demo.never Demo.never)
           (Demo.args ["^bdi"] 1%float false true)
           (re_compile (RegexEngine := MiniRe.engine) "^bdi") 0 (entered false)).
  - reflexivity.
  - simpl. lia.
  - reflexivity.
Defined.

(** ** The order of the queues *)

Lemma total_Permutation (l l' : list Z) : Permutation l l' -> total l = total l'.
Proof. induction 1; simpl; lia. Qed.

(** X12.  Without [--cgroup] the order in which the queues of a device
    are enumerated does not show: two devices of the same name whose queue
    lists are permutations of each other print the same record. *)
Theorem queue_order_is_immaterial {RE : RegexEngine} W args filter_re bdi bdi' s table_fmt now :
  dev_name bdi' = dev_name bdi ->
  Permutation (wb_list bdi) (wb_list bdi') ->
  cgroup args = false ->
  passes filter_re (dev_name bdi) = true ->
  10 <= PAGE_SHIFT W ->
  Stats_table_fmt s = Some table_fmt ->
  Stats_now s = Some now ->
  exists s1 s2,
    main_bdi W args filter_re bdi s = (s1, Ret tt)
    /\ main_bdi W args filter_re bdi' s = (s2, Ret tt)
    /\ trace s1 = trace s2.
Proof.
  intros Hname Hperm Hcg Hacc Hs Hfmt Hnow.
  destruct (main_bdi_run W args filter_re bdi s table_fmt now Hacc Hs Hfmt Hnow)
    as (s1 & Hrun1 & Htr1 & _).
  destruct (main_bdi_run W args filter_re bdi' s table_fmt now) as (s2 & Hrun2 & Htr2 & _);
    [rewrite Hname; exact Hacc | exact Hs | exact Hfmt | exact Hnow |].
  exists s1, s2. split; [exact Hrun1|]. split; [exact Hrun2|].
  rewrite Htr1, Htr2. unfold device_events, shown_device. rewrite Hcg, Hname. cbn [andb app].
  do 3 f_equal.
  - unfold device_counters. apply map_ext. intros i. unfold device_counter.
    apply total_Permutation, Permutation_map, Hperm.
  - unfold device_bandwidth. apply total_Permutation, Permutation_map, Hperm.
Qed.

Lemma queue_order_is_immaterial_witness :
  exists s1 s2,
    main_bdi (RE := MiniRe.engine) (Demo.world Demo.never Demo.never)
      (Demo.args [] 0%float false false) None Demo.bdi0 (Cases.in_pass false) = (s1, Ret tt)
    /\ main_bdi (RE := MiniRe.engine) (Demo.world Demo.never Demo.never)
         (Demo.args [] 0%float false false) None Cases.bdi0_reversed (Cases.in_pass false)
       = (s2, Ret tt)
    /\ trace s1 = trace s2.
Proof.
  apply (queue_order_is_immaterial (RE := MiniRe.engine) (Demo.world Demo.never Demo.never)
           (Demo.args [] 0%float false false) None Demo.bdi0 Cases.bdi0_reversed
           (Cases.in_pass false) true 0%float).
  - reflexivity.
  - apply perm_swap.
  - reflexivity.
  - reflexivity.
  - simpl. lia.
  - reflexivity.
  - reflexivity.
Defined.

(** X13.  Adding two queue samples into a device sample gives the same
    heap in either order. *)
Theorem collectStats_commutes s self w1 w2 o q1 q2 acc items1 items2 :
  heap s !! self = Some (CStats o) ->
  heap s !! stats o = Some (CList acc) ->
  length acc = NR_WB_STAT_ITEMS ->
  heap s !! w1 = Some (CStats q1) ->
  heap s !! stats q1 = Some (CList items1) ->
  length items1 = NR_WB_STAT_ITEMS ->
  heap s !! w2 = Some (CStats q2) ->
  heap s !! stats q2 = Some (CList items2) ->
  length items2 = NR_WB_STAT_ITEMS ->
  stats o <> stats q1 ->
  stats o <> stats q2 ->
  exists s',
    (collectStats self w1 ;;; collectStats self w2) s = (s', Ret tt)
    /\ (collectStats self w2 ;;; collectStats self w1) s = (s', Ret tt).
Proof.
  intros Hself Hacc Hla H1 Hi1 Hl1 H2 Hi2 Hl2 Hne1 Hne2.
  destruct acc as [|a0 [|a1 [|a2 [|a3 [|]]]]]; try discriminate Hla.
  destruct items1 as [|b0 [|b1 [|b2 [|b3 [|]]]]]; try discriminate Hl1.
  destruct items2 as [|c0 [|c1 [|c2 [|c3 [|]]]]]; try discriminate Hl2.
  assert (self <> stats o) by congruence.
  assert (self <> w1) by congruence.
  assert (self <> w2) by congruence.
  assert (self <> stats q1) by congruence.
  assert (self <> stats q2) by congruence.
  assert (w1 <> stats o) by congruence.
  assert (w2 <> stats o) by congruence.
  eexists. split.
  - erewrite bind_Ret by (eapply collectStats_run; eassumption).
    erewrite collectStats_run; [reflexivity | heap_lookup | heap_lookup | heap_lookup | | exact Hne2].
    simpl. rewrite !lookup_insert_ne by congruence. exact Hi2.
  - erewrite bind_Ret by (eapply collectStats_run; eassumption).
    erewrite collectStats_run; [| heap_lookup | heap_lookup | heap_lookup | | exact Hne1].
    + unfold with_heap. simpl. do 2 f_equal. apply map_eq. intros l.
      destruct (decide (l = self)) as [->|].
      { rewrite !lookup_insert_eq.
        rewrite (Z.add_shuffle0 (avg_bw o) (avg_bw q2) (avg_bw q1)). reflexivity. }
      rewrite !(lookup_insert_ne _ self) by congruence.
      destruct (decide (l = stats o)) as [->|].
      * rewrite !lookup_insert_eq.
        rewrite (Z.add_shuffle0 a0 c0 b0), (Z.add_shuffle0 a1 c1 b1),
          (Z.add_shuffle0 a2 c2 b2), (Z.add_shuffle0 a3 c3 b3). reflexivity.
      * rewrite !lookup_insert_ne by congruence. reflexivity.
    + simpl. rewrite !lookup_insert_ne by congruence. exact Hi1.
Qed.

Lemma collectStats_commutes_witness :
  exists s',
    (collectStats 1%positive 3%positive ;;; collectStats 1%positive 5%positive) three_samples
    = (s', Ret tt)
    /\ (collectStats 1%positive 5%positive ;;; collectStats 1%positive 3%positive) three_samples
       = (s', Ret tt).
Proof.
  apply (collectStats_commutes three_samples 1%positive 3%positive 5%positive
           {| name := "bdi0"; stats := 2%positive; avg_bw := 3 |}
           {| name := "bdi0_1"; stats := 4%positive; avg_bw := 5 |}
           {| name := "bdi0_42"; stats := 6%positive; avg_bw := 7 |}
           [1; 2; 3; 4] [10; 20; 30; 40] [100; 200; 300; 400]);
    try reflexivity; simpl; discriminate.
Defined.

(** ** Width of a row *)

Lemma length_ljust w text :
  String.length (ljust w text) = Nat.max w (String.length text).
Proof. unfold ljust. rewrite length_append, length_spaces. lia. Qed.

Lemma length_rjust w text :
  String.length (rjust w text) = Nat.max w (String.length text).
Proof. unfold rjust. rewrite length_append, length_spaces. lia. Qed.

(** X14.  A row is never shorter than the header plus the blank that ends
    the row, and is exactly that long, so that its columns end under those
    of the header, when the decimal text of each number fits the width of
    its column. *)
Theorem row_lines_up_with_header s self o c0 c1 c2 c3 :
  heap s !! self = Some (CStats o) ->
  heap s !! stats o = Some (CList [c0; c1; c2; c3]) ->
  exists row,
    table_row_str self s = (s, Ret row)
    /\ (S (String.length table_header_str) <= String.length row)%nat
    /\ ((String.length (str c1) <= 10)%nat ->
        (String.length (str c0) <= 12)%nat ->
        (String.length (str c2) <= 9)%nat ->
        (String.length (str c3) <= 9)%nat ->
        (String.length (str (avg_bw o)) <= 9)%nat ->
        String.length row = S (String.length table_header_str)).
Proof.
  intros Hself Hlist. eexists. split; [eapply table_row_str_run; eassumption|].
  destruct (string_last_suffix 16 (name o)) as [Hlen _].
  assert (String.length table_header_str = 70%nat) as -> by reflexivity.
  rewrite !length_append, length_ljust, !length_rjust, Hlen.
  change (String.length " ") with 1%nat.
  split; [lia|]. intros. lia.
Qed.

Lemma row_lines_up_with_header_witness :
  exists row,
    table_row_str 1%positive (one_sample "bdi0" [48; 24; 96; 72] 0)
    = (one_sample "bdi0" [48; 24; 96; 72] 0, Ret row)
    /\ (S (String.length table_header_str) <= String.length row)%nat
    /\ ((String.length (str 24) <= 10)%nat ->
        (String.length (str 48) <= 12)%nat ->
        (String.length (str 96) <= 9)%nat ->
        (String.length (str 72) <= 9)%nat ->
        (String.length (str (avg_bw {| name := "bdi0"; stats := 2%positive; avg_bw := 0 |}))
         <= 9)%nat ->
        String.length row = S (String.length table_header_str)).
Proof.
  apply (row_lines_up_with_header (one_sample "bdi0" [48; 24; 96; 72] 0) 1%positive
           {| name := "bdi0"; stats := 2%positive; avg_bw := 0 |} 48 24 96 72).
  - reflexivity.
  - reflexivity.
Defined.

(** ** Objects of earlier passes *)

Lemma keeps_objects_trans s1 s2 s3 :
  keeps_objects s1 s2 -> keeps_objects s2 s3 -> keeps_objects s1 s3.
Proof. unfold keeps_objects. intros H12 H23 l c Hl. apply H23, H12, Hl. Qed.

(** One turn of the inner loop changes, of the objects that were there,
    only the device sample and its list. *)
Lemma main_wb_frame {RE : RegexEngine} W args wb s bdi_stats o a0 a1 a2 a3 table_fmt now :
  10 <= PAGE_SHIFT W ->
  Stats_table_fmt s = Some table_fmt ->
  Stats_now s = Some now ->
  heap s !! bdi_stats = Some (CStats o) ->
  heap s !! stats o = Some (CList [a0; a1; a2; a3]) ->
  forall s', main_wb W args bdi_stats wb s = (s', Ret tt) ->
  forall l c, heap s !! l = Some c -> l <> bdi_stats -> l <> stats o -> heap s' !! l = Some c.
Proof.
  intros Hs Hfmt Hnow Hself Hacc s' Hrun' l c Hl Hl1 Hl2.
  destruct (WbStats_sample W wb s Hs) as (wb_stats & lw & Hrun & Hlw & Hwb & Hne).
  assert (bdi_stats <> stats o) by congruence.
  assert (bdi_stats <> wb_stats) by congruence.
  assert (bdi_stats <> lw) by congruence.
  assert (stats o <> wb_stats) by congruence.
  assert (stats o <> lw) by congruence.
  assert (l <> wb_stats) by congruence.
  assert (l <> lw) by congruence.
  unfold main_wb in Hrun'.
  erewrite bind_Ret in Hrun' by exact Hrun.
  erewrite bind_Ret in Hrun'; cycle 1.
  { eapply (collectStats_run _ bdi_stats wb_stats); [heap_lookup | heap_lookup | heap_lookup | |].
    - simpl. rewrite lookup_insert_ne by congruence. apply lookup_insert_eq.
    - simpl. congruence. }
  rewrite with_heap_with_heap in Hrun'. simpl heap in Hrun'.
  destruct (cgroup args).
  - erewrite (show_stats_run _ wb_stats _ (queue_counters W wb) table_fmt now) in Hrun';
      [| exact Hfmt | exact Hnow | heap_lookup | | reflexivity].
    + injection Hrun' as <-. simpl. rewrite !lookup_insert_ne by congruence. exact Hl.
    + simpl. rewrite !lookup_insert_ne by congruence. apply lookup_insert_eq.
  - injection Hrun' as <-. simpl. rewrite !lookup_insert_ne by congruence. exact Hl.
Qed.

Lemma main_wb_loop_frame {RE : RegexEngine} W args wbs :
  forall s bdi_stats o a0 a1 a2 a3 table_fmt now,
  10 <= PAGE_SHIFT W ->
  Stats_table_fmt s = Some table_fmt ->
  Stats_now s = Some now ->
  heap s !! bdi_stats = Some (CStats o) ->
  heap s !! stats o = Some (CList [a0; a1; a2; a3]) ->
  forall s', for_each wbs (main_wb W args bdi_stats) s = (s', Ret tt) ->
  forall l c, heap s !! l = Some c -> l <> bdi_stats -> l <> stats o -> heap s' !! l = Some c.
Proof.
  induction wbs as [|wb wbs IH];
    intros s bdi_stats o a0 a1 a2 a3 table_fmt now Hs Hfmt Hnow Hself Hacc s' Hrun' l c Hl Hl1 Hl2.
  - injection Hrun' as <-. exact Hl.
  - destruct (main_wb_run W args wb s bdi_stats o a0 a1 a2 a3 table_fmt now Hs Hfmt Hnow Hself Hacc)
      as (s1 & Hrun1 & _ & Hf1 & Hn1 & _ & Hb1 & Hc1).
    simpl for_each in Hrun'. erewrite bind_Ret in Hrun' by exact Hrun1.
    eapply (IH s1 bdi_stats _ _ _ _ _ table_fmt now Hs (eq_trans Hf1 Hfmt) (eq_trans Hn1 Hnow)
              Hb1 Hc1 s' Hrun' l c); [|exact Hl1 | exact Hl2].
    eapply main_wb_frame; eassumption.
Qed.

(** The pass over one device leaves every object that was there as it
    was: the device sample and the queue samples are new objects. *)
Lemma main_bdi_frame {RE : RegexEngine} W args filter_re bdi s table_fmt now :
  10 <= PAGE_SHIFT W ->
  Stats_table_fmt s = Some table_fmt ->
  Stats_now s = Some now ->
  forall s', main_bdi W args filter_re bdi s = (s', Ret tt) -> keeps_objects s s'.
Proof.
  intros Hs Hfmt Hnow s' Hrun' l c Hl. destruct bdi as [d wbs].
  destruct (BdiStats_run {| dev_name := d; wb_list := wbs |} s)
    as (bdi_stats & lb & Hrun & Hlb & Hself & Hne).
  assert (l <> bdi_stats) by congruence.
  assert (l <> lb) by congruence.
  set (s0 := with_heap _ s) in Hrun.
  assert (heap s0 !! l = Some c) as Hl0
    by (subst s0; simpl; rewrite !lookup_insert_ne by congruence; exact Hl).
  unfold main_bdi in Hrun'.
  erewrite (bind_Ret (BdiStats _)) in Hrun' by exact Hrun.
  erewrite (bind_Ret (get_stats _)) in Hrun'
    by (apply get_stats_run; subst s0; simpl; apply lookup_insert_eq).
  cbn [name dev_name wb_list] in Hrun'.
  destruct (passes filter_re d); cbn [negb] in Hrun'.
  - destruct (main_wb_loop W args wbs s0 bdi_stats
                {| name := d; stats := lb; avg_bw := 0 |} 0 0 0 0 table_fmt now d Hs Hfmt Hnow)
      as (s2 & Hloop & _ & Hf2 & Hn2 & _ & Hb2 & Hc2).
    { subst s0. simpl. apply lookup_insert_eq. }
    { subst s0. simpl. rewrite lookup_insert_ne by congruence. apply lookup_insert_eq. }
    simpl in Hb2, Hc2.
    assert (heap s2 !! l = Some c) as Hl2.
    { eapply (main_wb_loop_frame W args wbs s0 bdi_stats
                {| name := d; stats := lb; avg_bw := 0 |} 0 0 0 0 table_fmt now Hs Hfmt Hnow);
        [subst s0; simpl; apply lookup_insert_eq
        | subst s0; simpl; rewrite lookup_insert_ne by congruence; apply lookup_insert_eq
        | exact Hloop | exact Hl0 | assumption | simpl; assumption]. }
    erewrite bind_Ret in Hrun' by exact Hloop.
    erewrite bind_Ret in Hrun'; cycle 1.
    { eapply show_stats_run;
        [rewrite Hf2; exact Hfmt | rewrite Hn2; exact Hnow | exact Hb2 | exact Hc2 | reflexivity]. }
    destruct (cgroup args).
    + erewrite bind_Ret in Hrun' by (apply get_table_fmt_run; simpl; rewrite Hf2; exact Hfmt).
      destruct table_fmt; injection Hrun' as <-; exact Hl2.
    + injection Hrun' as <-. exact Hl2.
  - injection Hrun' as <-. exact Hl0.
Qed.

Lemma main_bdi_loop_frame {RE : RegexEngine} W args filter_re table_fmt now bdis : forall s,
  10 <= PAGE_SHIFT W ->
  Stats_table_fmt s = Some table_fmt ->
  Stats_now s = Some now ->
  forall s', for_each bdis (main_bdi W args filter_re) s = (s', Ret tt) -> keeps_objects s s'.
Proof.
  induction bdis as [|bdi bdis IH]; intros s Hs Hfmt Hnow s' Hrun'.
  - injection Hrun' as <-. intros l c Hl. exact Hl.
  - simpl for_each in Hrun'.
    destruct (passes filter_re (dev_name bdi)) eqn:Hp.
    + destruct (main_bdi_run W args filter_re bdi s table_fmt now Hp Hs Hfmt Hnow)
        as (s1 & Hrun & _ & Hf & Hn & _).
      erewrite bind_Ret in Hrun' by exact Hrun.
      eapply keeps_objects_trans.
      * eapply main_bdi_frame; eassumption.
      * eapply (IH s1 Hs (eq_trans Hf Hfmt) (eq_trans Hn Hnow)). exact Hrun'.
    + destruct (main_bdi_skipped W args filter_re bdi s Hp) as (h & _ & Hrun).
      erewrite bind_Ret in Hrun' by exact Hrun.
      eapply keeps_objects_trans.
      * eapply main_bdi_frame; eassumption.
      * eapply (IH (with_heap h s) Hs Hfmt Hnow). exact Hrun'.
Qed.

Lemma show_header_run s table_fmt :
  Stats_table_fmt s = Some table_fmt ->
  show_header s =
    (with_trace (trace s ++ (if table_fmt then [Stdout ""; Stdout table_header_str] else []))%list
       s, Ret tt).
Proof.
  intros Hfmt. unfold show_header.
  erewrite bind_Ret by (apply get_table_fmt_run; exact Hfmt).
  destruct table_fmt.
  - unfold bind, emit, with_trace. simpl. rewrite <- app_assoc. reflexivity.
  - rewrite app_nil_r. destruct s; reflexivity.
Qed.

(** X15.  A pass creates its samples and leaves alone what it finds: every
    object in the heap when the pass starts, the samples of all earlier
    passes among them, is in the heap unchanged when the pass ends. *)
Theorem pass_keeps_objects {RE : RegexEngine} W args filter_re n s :
  10 <= PAGE_SHIFT W ->
  Stats_table_fmt s = Some (negb (json args)) ->
  exists s',
    main_pass W args filter_re n s = (s', Ret tt)
    /\ keeps_objects s s'.
Proof.
  intros Hs Hfmt.
  destruct (main_pass_run W args filter_re n s Hs Hfmt) as (s' & Hrun & _).
  exists s'. split; [exact Hrun|].
  unfold main_pass in Hrun. erewrite bind_Ret in Hrun by reflexivity.
  erewrite bind_Ret in Hrun by (apply show_header_run; exact Hfmt).
  eapply (main_bdi_loop_frame W args filter_re (negb (json args)) (time_time W n)
            (bdi_list W n)) in Hrun;
    [exact Hrun | exact Hs | exact Hfmt | reflexivity].
Qed.

Lemma pass_keeps_objects_witness :
  exists s',
    main_pass (RE := MiniRe.engine) (Demo.world Demo.never Demo.never)
      (Demo.args [] 1%float false true) None 1 three_samples = (s', Ret tt)
    /\ keeps_objects three_samples s'.
Proof.
  apply (pass_keeps_objects (RE := MiniRe.engine) (Demo.world Demo.never Demo.never)
           (Demo.args [] 1%float false true) None 1 three_samples).
  - simpl. lia.
  - reflexivity.
Defined.

(** ** Constructors and printers *)

(** X16.  [BdiStats(bdi)] returns a new object that carries the name of
    the device, a new list of four zeros and a zero bandwidth; no object
    that existed is touched and nothing is printed.  The page shift is not
    consulted. *)
Theorem BdiStats_new_and_zero bdi s :
  exists s' self l,
    BdiStats bdi s = (s', Ret self)
    /\ heap s !! self = None
    /\ heap s !! l = None
    /\ self <> l
    /\ heap s' !! self = Some (CStats {| name := dev_name bdi; stats := l; avg_bw := 0 |})
    /\ heap s' !! l = Some (CList [0; 0; 0; 0])
    /\ keeps_objects s s'
    /\ trace s' = trace s.
Proof.
  destruct (BdiStats_run bdi s) as (self & l & Hrun & Hl & Hself & Hne).
  eexists _, self, l. split; [exact Hrun|]. simpl.
  split; [exact Hself|]. split; [exact Hl|]. split; [exact Hne|].
  split; [apply lookup_insert_eq|].
  split; [rewrite lookup_insert_ne by exact Hne; apply lookup_insert_eq|].
  split; [|reflexivity].
  intros l' c Hl'. simpl. rewrite !lookup_insert_ne by congruence. exact Hl'.
Qed.

(** X17.  [WbStats(wb)] returns a new object whose counter list is new as
    well, so that no two samples ever share a list; no object that existed
    is touched and nothing is printed. *)
Theorem WbStats_new W wb s :
  10 <= PAGE_SHIFT W ->
  exists s' self o,
    WbStats W wb s = (s', Ret self)
    /\ heap s' !! self = Some (CStats o)
    /\ heap s !! self = None
    /\ heap s !! stats o = None
    /\ self <> stats o
    /\ keeps_objects s s'
    /\ trace s' = trace s.
Proof.
  intros Hs.
  destruct (WbStats_sample W wb s Hs) as (self & l & Hrun & Hl & Hself & Hne).
  eexists _, self, _. split; [exact Hrun|]. simpl.
  split; [apply lookup_insert_eq|]. simpl.
  split; [exact Hself|]. split; [exact Hl|]. split; [exact Hne|].
  split; [|reflexivity].
  intros l' c Hl'. simpl. rewrite !lookup_insert_ne by congruence. exact Hl'.
Qed.

Lemma WbStats_new_witness :
  exists s' self o,
    WbStats (Demo.world Demo.never Demo.never) Demo.wb_cg42 three_samples = (s', Ret self)
    /\ heap s' !! self = Some (CStats o)
    /\ heap three_samples !! self = None
    /\ heap three_samples !! stats o = None
    /\ self <> stats o
    /\ keeps_objects three_samples s'
    /\ trace s' = trace three_samples.
Proof.
  apply (WbStats_new (Demo.world Demo.never Demo.never) Demo.wb_cg42 three_samples).
  simpl. lia.
Defined.

(** X18.  Printing reads and does not write.  [table_row_str] and [dict]
    leave the whole state as it is, whether they return or raise;
    [show_stats] leaves the heap and [exit_req] as they are and appends at
    most one record to the output. *)
Theorem printing_is_read_only self s :
  (forall s' r, table_row_str self s = (s', r) -> s' = s)
  /\ (forall now s' r, dict self now s = (s', r) -> s' = s)
  /\ (forall s' r, show_stats self s = (s', r) ->
        heap s' = heap s /\ exit_req s' = exit_req s
        /\ exists records, trace s' = (trace s ++ records)%list /\ (length records <= 1)%nat).
Proof.
  assert (forall s' r, table_row_str self s = (s', r) -> s' = s) as Hrow.
  { unfold table_row_str, bind, get_stats, get_item, ret. intros s' r.
    repeat case_match; intros; simplify_eq; reflexivity. }
  assert (forall now s' r, dict self now s = (s', r) -> s' = s) as Hdict.
  { unfold dict, bind, get_stats, get_item, ret. intros now s' r.
    repeat case_match; intros; simplify_eq; reflexivity. }
  split; [exact Hrow|]. split; [exact Hdict|].
  intros s' r. unfold show_stats, bind at 1, get_table_fmt.
  destruct (Stats_table_fmt s) as [[|]|].
  - unfold bind. destruct (table_row_str self s) as [s1 [row|e|]] eqn:Hr;
      pose proof (Hrow _ _ eq_refl); subst s1; intros [= <- <-]; simpl.
    + repeat split. eexists. split; [reflexivity | simpl; lia].
    + repeat split. exists []. rewrite app_nil_r. split; [reflexivity | simpl; lia].
    + repeat split. exists []. rewrite app_nil_r. split; [reflexivity | simpl; lia].
  - unfold bind at 1, get_now. destruct (Stats_now s) as [now|].
    + unfold bind. destruct (dict self now s) as [s1 [d|e|]] eqn:Hd;
        apply Hdict in Hd; subst s1; intros [= <- <-]; simpl.
      * repeat split. eexists. split; [reflexivity | simpl; lia].
      * repeat split. exists []. rewrite app_nil_r. split; [reflexivity | simpl; lia].
      * repeat split. exists []. rewrite app_nil_r. split; [reflexivity | simpl; lia].
    + intros [= <- <-]. repeat split. exists []. rewrite app_nil_r. split; [reflexivity | simpl; lia].
  - intros [= <- <-]. repeat split. exists []. rewrite app_nil_r. split; [reflexivity | simpl; lia].
Qed.
